(** * Bayronik: data ingestion, training orchestration and export

    A shallow embedding of [bayronik-model/]: [config.py],
    [scripts/dataset.py], [scripts/dataset_hdf5.py], [train.py] and
    [exporter.py].  Python objects become records, exceptions a sum type,
    the file system and the numpy buffers explicit stores that are passed
    along, and the services of torch that the scripts call (the random
    generator, the network, the serializer) the fields of type classes.

    Part I holds the embedding, Part II the lemmas about it. *)

From Stdlib Require Import ZArith List String Ascii Floats Uint63 Lia.
From stdpp Require Import base option list gmap strings pretty.

(* ===================================================================== *)
(** * Part I: the embedding *)
(* ===================================================================== *)

(** ** Python values: exceptions, results, floats *)

Module Py.

Inductive exn_type :=
| FileNotFoundError | FileExistsError | ValueError | IndexError | KeyError
| ZeroDivisionError | OverflowError | OSError | RuntimeError | TypeError.

(** An exception object: its class and the text of [str(e)]. *)
Record exn := Exn { exn_class : exn_type; exn_msg : string }.

(** [type(e).__name__] *)
Definition type_name (t : exn_type) : string :=
  match t with
  | FileNotFoundError => "FileNotFoundError"
  | FileExistsError => "FileExistsError"
  | ValueError => "ValueError"
  | IndexError => "IndexError"
  | KeyError => "KeyError"
  | ZeroDivisionError => "ZeroDivisionError"
  | OverflowError => "OverflowError"
  | OSError => "OSError"
  | RuntimeError => "RuntimeError"
  | TypeError => "TypeError"
  end.

(** The result of a call: a value, or a raised exception. *)
Inductive result (A : Type) :=
| Ok (a : A)
| Raise (e : exn).
Arguments Ok {A} a.
Arguments Raise {A} e.

Definition bind {A B} (r : result A) (k : A -> result B) : result B :=
  match r with
  | Ok a => k a
  | Raise e => Raise e
  end.

Definition is_ok {A} (r : result A) : bool :=
  match r with Ok _ => true | Raise _ => false end.

(** [float(n)] for a length [n]: [len] returns a [Py_ssize_t], which
    fits 63 bits; the conversion rounds to the nearest binary64. *)
Definition float_of_len (n : nat) : float :=
  PrimFloat.of_uint63 (Uint63.of_Z (Z.of_nat n)).

(** [int(x)]: truncation towards zero; infinities and NaN raise. *)
Definition int_of_float (x : float) : result Z :=
  match Prim2SF x with
  | S754_zero _ => Ok 0%Z
  | S754_finite s m e =>
      let a := if (0 <=? e)%Z then Z.shiftl (Zpos m) e
               else Z.shiftr (Zpos m) (- e) in
      Ok (if s then (- a)%Z else a)
  | S754_infinity _ =>
      Raise (Exn OverflowError "cannot convert float infinity to integer")
  | S754_nan => Raise (Exn ValueError "cannot convert float NaN to integer")
  end.

(** [x / n] for a float [x] and an int [n]. *)
Definition truediv (x : float) (n : nat) : result float :=
  match n with
  | O => Raise (Exn ZeroDivisionError "float division by zero")
  | S _ => Ok (PrimFloat.div x (float_of_len n))
  end.

(** [float('inf')] *)
Definition inf : float := PrimFloat.infinity.

Definition is_nan (x : float) : bool := negb (PrimFloat.eqb x x).

(** [l[a:b]] for a list and two ints. *)
Definition clamp (len i : Z) : Z :=
  if (i <? 0)%Z then Z.max 0 (i + len) else Z.min i len.

Definition slice {A} (l : list A) (a b : Z) : list A :=
  let len := Z.of_nat (length l) in
  let a' := clamp len a in
  let b' := clamp len b in
  take (Z.to_nat (b' - a')) (drop (Z.to_nat a') l).

(** [s.lower()] on ASCII text. *)
Definition lower_ascii (c : ascii) : ascii :=
  let n := nat_of_ascii c in
  if (65 <=? n)%nat && (n <=? 90)%nat then ascii_of_nat (n + 32) else c.

Fixpoint lower (s : string) : string :=
  match s with
  | EmptyString => EmptyString
  | String c s' => String (lower_ascii c) (lower s')
  end.

Definition startswith_sep (s : string) : bool :=
  match s with
  | String c _ => Ascii.eqb c "/"
  | EmptyString => false
  end.

Fixpoint endswith_sep (s : string) : bool :=
  match s with
  | EmptyString => false
  | String c EmptyString => Ascii.eqb c "/"
  | String _ s' => endswith_sep s'
  end.

(** The text of ["\n"]. *)
Definition newline : string := String (ascii_of_nat 10) EmptyString.

(** [os.path.join(a, b)] of [posixpath]. *)
Definition path_join (a b : string) : string :=
  if startswith_sep b then b
  else if (String.length a =? 0)%nat || endswith_sep a then a +:+ b
  else a +:+ "/" +:+ b.

End Py.

Import Py.

(** The error monad, with stdpp's [x ← r; k]. *)
#[global] Instance result_ret : MRet result := @Ok.
#[global] Instance result_bind : MBind result :=
  fun A B k r => Py.bind r k.

(** ** [config.py] *)

Module config.

Definition BATCH_SIZE : nat := 4.
Definition NUM_EPOCHS : nat := 15.
Definition NUM_WORKERS : nat := 0.
Definition SUITE : string := "IllustrisTNG".
Definition DATASET_TYPE : string := "CV".

(** [BASE_DIR] is the directory that holds [config.py]; it depends on
    where the code is installed, and is an argument here. *)
Definition DATA_DIR (BASE_DIR : string) : string := path_join BASE_DIR "data".
Definition WEIGHTS_DIR (BASE_DIR : string) : string :=
  path_join BASE_DIR "weights".
Definition MODEL_NAME : string :=
  "unet_" +:+ lower SUITE +:+ "_" +:+ lower DATASET_TYPE +:+ "_v1.pth".

End config.

(** ** The file system *)

Module Disk.

(** A stored array: its shape and its elements in row-major order. *)
Record array := Array { shape : list nat; data : list float }.

(** What a path holds: a .npy array, an HDF5 container of named
    datasets, or bytes written by a serializer. *)
Inductive file :=
| NpyFile (a : array)
| Hdf5File (datasets : gmap string array)
| Blob (bytes : list Byte.byte).

Record disk := MkDisk { files : gmap string file; dirs : gset string }.

Definition empty : disk := MkDisk ∅ ∅.

(** [os.path.exists] *)
Definition exists_ (d : disk) (p : string) : bool :=
  bool_decide (is_Some (files d !! p)) || bool_decide (p ∈ dirs d).

(** [os.makedirs(p, exist_ok=True)]: a regular file in the way raises. *)
Definition makedirs (d : disk) (p : string) : result disk :=
  match files d !! p with
  | Some _ => Raise (Exn FileExistsError p)
  | None => Ok (MkDisk (files d) ({[p]} ∪ dirs d))
  end.

(** What a writer that puts [bytes] at [p] in place leaves behind after
    [k] bytes: the file is created or truncated when it is opened, and
    grows as the bytes arrive. *)
Definition written (d : disk) (p : string) (bytes : list Byte.byte)
    (k : nat) : disk :=
  MkDisk (<[p := Blob (take k bytes)]> (files d)) (dirs d).

(** Opening for reading what is not a regular file. *)
Definition cannot_open (d : disk) (p : string) : exn :=
  if bool_decide (p ∈ dirs d) then Exn OSError ("Is a directory: " +:+ p)
  else Exn FileNotFoundError ("No such file or directory: " +:+ p).

(** [np.load(p)] *)
Definition np_load (d : disk) (p : string) : result array :=
  match files d !! p with
  | Some (NpyFile a) => Ok a
  | Some _ => Raise (Exn ValueError "Cannot load file containing pickled data when allow_pickle=False")
  | None => Raise (cannot_open d p)
  end.

(** [h5py.File(p, 'r')] *)
Definition h5_open (d : disk) (p : string) : result (gmap string array) :=
  match files d !! p with
  | Some (Hdf5File ds) => Ok ds
  | Some _ => Raise (Exn OSError "Unable to open file (file signature not found)")
  | None => Raise (cannot_open d p)
  end.

(** [f[name]] *)
Definition h5_dataset (f : gmap string array) (name : string) : result array :=
  match f !! name with
  | Some a => Ok a
  | None => Raise (Exn KeyError name)
  end.

End Disk.

Import Disk.

(** ** numpy arrays and torch tensors over shared buffers *)

Module Np.

(** A binary32 value. *)
Definition f32 : Type := spec_float.

(** The cast of a binary64 to binary32: round to nearest, ties to even;
    what is too large becomes an infinity. *)
Definition astype_float32 (x : float) : f32 :=
  match Prim2SF x with
  | S754_finite s m e => binary_round 24 128 s m e
  | y => y
  end.

(** Buffers are cells of a heap; a cell is never freed here. *)
Abbreviation heap := (list (list f32)).

(** An array or a tensor is a window on a buffer: numpy's basic
    indexing, [torch.from_numpy] and [unsqueeze] all return windows on
    the memory of their argument. *)
Record ndarray := NdArray { buf : nat; offset : nat; dims : list nat }.

Definition numel (shape : list nat) : nat := foldr Nat.mul 1 shape.

Definition alloc (h : heap) (xs : list f32) : nat * heap :=
  (length h, h ++ [xs]).

(** The elements an array shows, in row-major order. *)
Definition values (h : heap) (a : ndarray) : list f32 :=
  match h !! buf a with
  | Some xs => take (numel (dims a)) (drop (offset a) xs)
  | None => []
  end.

(** What [==] on two tensors compares: shape and elements. *)
Definition content (h : heap) (a : ndarray) : list nat * list f32 :=
  (dims a, values h a).

(** [a.shape[0]] *)
Definition shape0 (shape : list nat) : result nat :=
  match shape with
  | n :: _ => Ok n
  | [] => Raise (Exn IndexError "tuple index out of range")
  end.

(** [a[idx]] for an index that is not negative: a window, no copy. *)
Definition getitem (a : ndarray) (idx : nat) : result ndarray :=
  match dims a with
  | [] => Raise (Exn IndexError "too many indices for array")
  | n :: rest =>
      if (idx <? n)%nat
      then Ok (NdArray (buf a) (offset a + idx * numel rest) rest)
      else Raise (Exn IndexError "index out of bounds")
  end.

(** [np.load(p).astype(np.float32)] and [dset[:].astype(np.float32)]:
    the cast copies into a new buffer.  The temporary that holds the
    stored precision is dropped at once and gets no cell. *)
Definition of_array (h : heap) (a : array) : ndarray * heap :=
  let (l, h') := alloc h (map astype_float32 (data a)) in
  (NdArray l 0 (shape a), h').

(** [dset[idx]] of h5py: the elements of entry [idx], read from the
    file. *)
Definition h5_getitem (a : array) (idx : nat) : result array :=
  match shape a with
  | [] => Raise (Exn ValueError "Illegal slicing argument for scalar dataspace")
  | n :: rest =>
      if (idx <? n)%nat
      then Ok (Array rest (take (numel rest) (drop (idx * numel rest) (data a))))
      else Raise (Exn IndexError "Index out of range")
  end.

(** The C library's [log1pf] on the arguments where it computes: finite,
    not zero, above -1. *)
Class Libm := { log1pf : f32 -> f32 }.

Definition minus_one : f32 := S754_finite true 8388608 (-23).

(** [np.log1p] on one binary32: the special values are those of C99
    Annex F. *)
Definition log1p `{Libm} (x : f32) : f32 :=
  match x with
  | S754_nan => S754_nan
  | S754_zero s => S754_zero s
  | S754_infinity false => S754_infinity false
  | S754_infinity true => S754_nan
  | S754_finite _ _ _ =>
      match SFcompare x minus_one with
      | Some Lt => S754_nan
      | Some Eq => S754_infinity true
      | _ => log1pf x
      end
  end.

(** [np.log1p(a)]: a new array. *)
Definition np_log1p `{Libm} (h : heap) (a : ndarray) : ndarray * heap :=
  let (l, h') := alloc h (map log1p (values h a)) in
  (NdArray l 0 (dims a), h').

(** [torch.from_numpy(a)]: a tensor on the memory of [a]. *)
Definition from_numpy (a : ndarray) : ndarray := a.

(** [t.unsqueeze(0)] *)
Definition unsqueeze0 (t : ndarray) : ndarray :=
  NdArray (buf t) (offset t) (1 :: dims t).

Definition is_finite (x : f32) : bool :=
  match x with
  | S754_zero _ | S754_finite _ _ _ => true
  | _ => false
  end.

(** [x >= 0] *)
Definition nonneg (x : f32) : bool := SFleb (S754_zero false) x.

End Np.

Import Np.

(** ** The sample transform

    Lines 55-63 of [scripts/dataset.py] and lines 99-107 of
    [scripts/dataset_hdf5.py], which are the same statements: [np.log1p]
    of each map, then [torch.from_numpy(...).unsqueeze(0)]. *)

Definition sample_transform `{Libm} (h : heap) (input_map target_map : ndarray)
    : ndarray * ndarray * heap :=
  let (input_map, h1) := np_log1p h input_map in
  let (target_map, h2) := np_log1p h1 target_map in
  let input_tensor := unsqueeze0 (from_numpy input_map) in
  let target_tensor := unsqueeze0 (from_numpy target_map) in
  (input_tensor, target_tensor, h2).

(** What the caller of [__getitem__] reads in the two tensors. *)
Definition read_pair (r : result (ndarray * ndarray * heap))
    : result ((list nat * list f32) * (list nat * list f32)) :=
  '(input_tensor, target_tensor, h) ← r;
  Ok (content h input_tensor, content h target_tensor).

(** Two calls end alike: both raise, or both return the same value. *)
Definition same_outcome {A} (r1 r2 : result A) : Prop :=
  match r1, r2 with
  | Ok a1, Ok a2 => a1 = a2
  | Raise _, Raise _ => True
  | _, _ => False
  end.

(** A stand-in for the C library in examples: [log1pf] as the identity. *)
Definition libm_id : Libm := {| log1pf := fun x => x |}.

(** ** [scripts/dataset.py]

    The lines the constructors print while they load are left out. *)

Module dataset.

Record CAMELSDataset := MkCAMELSDataset {
  root_dir : string;
  input_maps : ndarray;
  target_maps : ndarray
}.

Definition input_filename (suite dataset_type : string) : string :=
  "Maps_Mcdm_" +:+ suite +:+ "_" +:+ dataset_type +:+ "_z=0.00.npy".

Definition target_filename (suite dataset_type : string) : string :=
  "Maps_Mtot_" +:+ suite +:+ "_" +:+ dataset_type +:+ "_z=0.00.npy".

(** [CAMELSDataset.__init__] *)
Definition init (d : disk) (h : heap) (root suite dataset_type : string)
    : result (CAMELSDataset * heap) :=
  let input_path := path_join root (input_filename suite dataset_type) in
  let target_path := path_join root (target_filename suite dataset_type) in
  if negb (exists_ d input_path) || negb (exists_ d target_path) then
    Raise (Exn FileNotFoundError
             ("Could not find required .npy files in " +:+ root +:+ ". " +:+
              "Please ensure both '{input_filename}' and '{target_filename}' are present."))
  else
    a ← np_load d input_path;
    let (input_maps, h1) := of_array h a in
    b ← np_load d target_path;
    let (target_maps, h2) := of_array h1 b in
    n ← shape0 (dims input_maps);
    m ← shape0 (dims target_maps);
    if negb (n =? m)%nat then
      Raise (Exn ValueError "Input and target files have a different number of maps!")
    else
      Ok (MkCAMELSDataset root input_maps target_maps, h2).

(** The arrays of the dataset are cells of the heap [h]. *)
Definition allocated (h : heap) (self : CAMELSDataset) : Prop :=
  (buf (input_maps self) < length h)%nat ∧
  (buf (target_maps self) < length h)%nat.

(** [CAMELSDataset.__len__] *)
Definition len (self : CAMELSDataset) : result nat :=
  shape0 (dims (input_maps self)).

(** [CAMELSDataset.__getitem__] *)
Definition getitem `{Libm} (h : heap) (self : CAMELSDataset) (idx : nat)
    : result (ndarray * ndarray * heap) :=
  input_map ← Np.getitem (input_maps self) idx;
  target_map ← Np.getitem (target_maps self) idx;
  Ok (sample_transform h input_map target_map).

End dataset.

(** ** [scripts/dataset_hdf5.py] *)

Module dataset_hdf5.

(** [redshift] holds the text of [f"{redshift:.2f}"]. *)
Record CAMELSDatasetHDF5 := MkCAMELSDatasetHDF5 {
  root_dir : string;
  suite : string;
  dataset_type : string;
  redshift : string;
  cache_in_memory : bool;
  input_path : string;
  target_path : string;
  n_simulations : nat;
  map_shape : list nat;
  input_cache : option ndarray;
  target_cache : option ndarray
}.

Definition input_filename (suite dataset_type z : string) : string :=
  "Maps_Mcdm_" +:+ suite +:+ "_" +:+ dataset_type +:+ "_z=" +:+ z +:+ ".hdf5".

Definition target_filename (suite dataset_type z : string) : string :=
  "Maps_Mtot_" +:+ suite +:+ "_" +:+ dataset_type +:+ "_z=" +:+ z +:+ ".hdf5".

(** [CAMELSDatasetHDF5.__init__] *)
Definition init (d : disk) (h : heap) (root suite dataset_type z : string)
    (cache_in_memory : bool) : result (CAMELSDatasetHDF5 * heap) :=
  let input_path := path_join root (input_filename suite dataset_type z) in
  let target_path := path_join root (target_filename suite dataset_type z) in
  if negb (exists_ d input_path) then
    Raise (Exn FileNotFoundError
             ("Input HDF5 file not found: " +:+ input_path +:+ newline +:+
              "Please download from CAMELS: https://camels.readthedocs.io/"))
  else if negb (exists_ d target_path) then
    Raise (Exn FileNotFoundError ("Target HDF5 file not found: " +:+ target_path))
  else
    f ← h5_open d input_path;
    maps ← h5_dataset f "Maps_Mcdm";
    n_simulations ← shape0 (shape maps);
    let map_shape := drop 1 (shape maps) in
    let self := MkCAMELSDatasetHDF5 root suite dataset_type z cache_in_memory
                  input_path target_path n_simulations map_shape in
    if cache_in_memory then
      f ← h5_open d input_path;
      a ← h5_dataset f "Maps_Mcdm";
      let (input_cache, h1) := of_array h a in
      f ← h5_open d target_path;
      b ← h5_dataset f "Maps_Mtot";
      let (target_cache, h2) := of_array h1 b in
      Ok (self (Some input_cache) (Some target_cache), h2)
    else
      Ok (self None None, h).

(** [CAMELSDatasetHDF5.__len__] *)
Definition len (self : CAMELSDatasetHDF5) : nat := n_simulations self.

Definition none_subscript {A} : result A :=
  Raise (Exn TypeError "'NoneType' object is not subscriptable").

(** [CAMELSDatasetHDF5.__getitem__]; the lazy mode reads the disk as it
    is when the call is made. *)
Definition getitem `{Libm} (d : disk) (h : heap) (self : CAMELSDatasetHDF5)
    (idx : nat) : result (ndarray * ndarray * heap) :=
  if cache_in_memory self then
    input_cache ← from_option Ok none_subscript (input_cache self);
    input_map ← Np.getitem input_cache idx;
    target_cache ← from_option Ok none_subscript (target_cache self);
    target_map ← Np.getitem target_cache idx;
    Ok (sample_transform h input_map target_map)
  else
    f ← h5_open d (input_path self);
    maps ← h5_dataset f "Maps_Mcdm";
    entry ← h5_getitem maps idx;
    let (input_map, h1) := of_array h entry in
    f ← h5_open d (target_path self);
    maps ← h5_dataset f "Maps_Mtot";
    entry ← h5_getitem maps idx;
    let (target_map, h2) := of_array h1 entry in
    Ok (sample_transform h2 input_map target_map).

End dataset_hdf5.

(** ** The services of torch *)

(** A random generator: [random] is one draw of [Generator::random()],
    an unsigned 32-bit number, and the state that follows. *)
Class Generator (G : Type) := { random : G -> nat * G }.

Module torch.

(** [r[i], r[j] = r[j], r[i]] *)
Definition swap (r : list nat) (i j : nat) : list nat :=
  match r !! i, r !! j with
  | Some x, Some y => <[j := x]> (<[i := y]> r)
  | _, _ => r
  end.

(** The loop of [randperm] on the CPU: for [i] from 0 up to [n - 2],
    draw [z = random() % (n - i)] and exchange entries [i] and [z + i].
    [k] counts the rounds that are left. *)
Fixpoint randperm_loop `{Generator G} (k i n : nat) (r : list nat) (g : G)
    : list nat * G :=
  match k with
  | O => (r, g)
  | S k' =>
      let (u, g') := random g in
      let z := u mod (n - i) in
      randperm_loop k' (S i) n (swap r i (z + i)) g'
  end.

(** [torch.randperm(n, generator=g).tolist()] *)
Definition randperm `{Generator G} (n : nat) (g : G) : list nat * G :=
  randperm_loop (n - 1) 0 n (seq 0 n) g.

(** The first [k] numbers a generator yields from the state [g]. *)
Fixpoint draws `{Generator G} (k : nat) (g : G) : list nat :=
  match k with
  | O => []
  | S k' => let (u, g') := random g in u :: draws k' g'
  end.

(** A generator that replays a recorded list of draws, then zeros. *)
Definition replay : Generator (list nat) :=
  {| random := fun l => (hd 0 l, tl l) |}.

(** [itertools.accumulate(lengths)], from the running total [acc]. *)
Fixpoint accumulate (acc : Z) (lengths : list Z) : list Z :=
  match lengths with
  | [] => []
  | x :: rest => (acc + x)%Z :: accumulate (acc + x)%Z rest
  end.

Definition sum (lengths : list Z) : Z := foldr Z.add 0%Z lengths.

(** [random_split(dataset, lengths)] for integer lengths; a [Subset] is
    the list of its indices.  (When the lengths sum to 1, recent
    versions read them as fractions; for the lengths [1, 0], the one
    such list that [train_model] passes, that gives the same lengths.) *)
Definition random_split `{Generator G} (dataset_len : nat) (lengths : list Z)
    (g : G) : result (list (list nat) * G) :=
  if negb (sum lengths =? Z.of_nat dataset_len)%Z then
    Raise (Exn ValueError
             "Sum of input lengths does not equal the length of the input dataset!")
  else
    let (indices, g') := randperm (Z.to_nat (sum lengths)) g in
    Ok (map (fun '(offset, length) => slice indices (offset - length) offset)
            (zip (accumulate 0 lengths) lengths), g').

(** [DataLoader(subset, batch_size, shuffle)] *)
Record DataLoader := MkDataLoader {
  subset : list nat;
  batch_size : nat;
  shuffle : bool
}.

(** [len(loader)]: the number of batches, the last one may be short. *)
Definition loader_len (l : DataLoader) : nat :=
  (length (subset l) + batch_size l - 1) / batch_size l.

(** Consecutive groups of [size] entries; [fuel] bounds the number of
    groups. *)
Fixpoint chunks (fuel size : nat) (l : list nat) : list (list nat) :=
  match fuel with
  | O => []
  | S fuel' =>
      match l with
      | [] => []
      | _ => take size l :: chunks fuel' size (drop size l)
      end
  end.

Definition batched (size : nat) (l : list nat) : list (list nat) :=
  chunks (length l) size l.

End torch.

Import torch.

(** What [train.py] and [exporter.py] ask of torch, besides the
    generator.  A batch is the list of the dataset indices it holds.

    - [sampler_rejects_empty]: whether the sampler of a shuffling loader
      raises on a subset without entries (it does in the versions that
      check [num_samples <= 0]).
    - [epoch_order]: the order in which a shuffling loader visits its
      subset in one pass.
    - [unet_init]: [UNet(1, 1).to(DEVICE)] with its optimizer.
    - [train_step]: forward, MSE loss, [zero_grad], [backward], [step];
      the new parameters and [loss.item()].
    - [eval_loss]: forward and MSE loss under [no_grad]; [loss.item()].
    - [to_cpu]: [model.to("cpu")].
    - [state_dict]: the bytes [torch.save(model.state_dict(), _)] writes.
    - [save_fault]: when a write of these bytes at this path on this
      disk fails, with which exception, and after how many bytes
      ([None]: before the file is opened).
    - [load_state_dict]: [torch.load] and [model.load_state_dict] on a
      new network.
    - [trace_and_serialize]: [torch.jit.trace] on a probe from
      [torch.randn(1, 1, 256, 256)], and the bytes [save] writes. *)
Class Torch (G Model : Type) := {
  sampler_rejects_empty : bool;
  epoch_order : G -> list nat -> list nat * G;
  unet_init : G -> Model * G;
  train_step : Model -> list nat -> Model * float;
  eval_loss : Model -> list nat -> float;
  to_cpu : Model -> Model;
  state_dict : Model -> list Byte.byte;
  save_fault : disk -> string -> list Byte.byte -> option (option nat * exn);
  load_state_dict : list Byte.byte -> result Model;
  trace_and_serialize : Model -> G -> result (list Byte.byte) * G
}.

(** [f"{x:.6f}"] *)
Class Format := { format_6f : float -> string }.

(** ** Effects: the disk, what was printed, what was written *)

Module Io.

Inductive event :=
| Print (line : string)
| Makedirs (p : string)
| Save (p : string) (bytes : list Byte.byte).

(** The disk as it is, the states it has been in before (oldest first),
    and the calls made so far. *)
Record world := World {
  w_disk : disk;
  w_past : list disk;
  w_events : list event
}.

Definition boot (d : disk) : world := World d [] [].

(** Every state the disk has been in, a crash can stop at any of them. *)
Definition observable (w : world) : list disk := w_past w ++ [w_disk w].

Definition stdout (w : world) : list string :=
  omap (fun e => match e with Print l => Some l | _ => None end) (w_events w).

(** The paths of the [Save] calls. *)
Definition saves (evs : list event) : list string :=
  omap (fun e => match e with Save p _ => Some p | _ => None end) evs.

(** A statement: it returns or raises, and leaves a world. *)
Definition io (A : Type) : Type := world -> result A * world.

Definition ret {A} (a : A) : io A := fun w => (Ok a, w).

Definition bind {A B} (m : io A) (k : A -> io B) : io B :=
  fun w =>
    match m w with
    | (Ok a, w') => k a w'
    | (Raise e, w') => (Raise e, w')
    end.

Definition lift {A} (r : result A) : io A := fun w => (r, w).

Definition read_disk : io disk := fun w => (Ok (w_disk w), w).

Definition log (e : event) (w : world) : world :=
  World (w_disk w) (w_past w) (w_events w ++ [e]).

(** The disk moves through [ds] and then to [d]. *)
Definition advance (ds : list disk) (d : disk) (w : world) : world :=
  World d (w_past w ++ w_disk w :: ds) (w_events w).

Definition print (line : string) : io unit :=
  fun w => (Ok tt, log (Print line) w).

(** [os.makedirs(p, exist_ok=True)] *)
Definition os_makedirs (p : string) : io unit :=
  fun w =>
    let w := log (Makedirs p) w in
    match makedirs (w_disk w) p with
    | Ok d => (Ok tt, advance [] d w)
    | Raise e => (Raise e, w)
    end.

(** A write in place that stops after [k] bytes. *)
Definition write_upto (p : string) (bytes : list Byte.byte) (k : nat)
    (w : world) : world :=
  let d := w_disk w in
  advance (map (written d p bytes) (seq 0 k)) (written d p bytes k) w.

(** [try: body except Exception as e: handler(e)] *)
Definition try_except {A} (body : io A) (handler : exn -> io A) : io A :=
  fun w =>
    match body w with
    | (Ok a, w') => (Ok a, w')
    | (Raise e, w') => handler e w'
    end.

End Io.

Import Io.

#[global] Instance io_ret : MRet io := @Io.ret.
#[global] Instance io_bind : MBind io := fun A B k m => Io.bind m k.

(** [torch.save(bytes, p)] and [module.save(p)]: open [p] for writing
    and stream the bytes into it. *)
Definition torch_save `{Torch G Model} (bytes : list Byte.byte) (p : string)
    : io unit :=
  fun w =>
    let w := log (Save p bytes) w in
    match save_fault (w_disk w) p bytes with
    | None => (Ok tt, write_upto p bytes (length bytes) w)
    | Some (None, e) => (Raise e, w)
    | Some (Some k, e) => (Raise e, write_upto p bytes (k `min` length bytes) w)
    end.

(** ** [train.py]

    The calls to [wandb] are left out: they touch neither the disk nor
    the loop. *)

Module train.

Import config.

Section Train.
Context {G Model : Type} `{!Generator G, !Torch G Model, !Format}.

(** [DataLoader(subset, batch_size=BATCH_SIZE, shuffle=shuffle)] *)
Definition new_loader (subset : list nat) (shuffle : bool) : result DataLoader :=
  if shuffle && sampler_rejects_empty && (length subset =? 0)%nat then
    Raise (Exn ValueError
             "num_samples should be a positive integer value, but got num_samples=0")
  else Ok (MkDataLoader subset BATCH_SIZE shuffle).

(** The batches of one pass over a loader. *)
Definition loader_batches (l : DataLoader) (g : G) : list (list nat) * G :=
  if shuffle l then
    let (order, g') := epoch_order g (subset l) in
    (batched (batch_size l) order, g')
  else (batched (batch_size l) (subset l), g).

(** The binary64 that the literal [0.1] denotes. *)
Definition one_tenth : float := 0x1.999999999999ap-4%float.

(** [val_size = int(len(full_dataset) * 0.1)] *)
Definition val_size (n : nat) : result Z :=
  int_of_float (PrimFloat.mul (float_of_len n) one_tenth).

(** Lines 35-36: [val_size] and [train_size]. *)
Definition split_sizes (n : nat) : result (Z * Z) :=
  val_size ← val_size n;
  let train_size := (Z.of_nat n - val_size)%Z in
  Ok (train_size, val_size).

(** Line 37: [random_split] into the two subsets. *)
Definition split_at (n : nat) (train_size val_size : Z) (g : G)
    : result (list nat * list nat * G) :=
  '(parts, g') ← random_split n [train_size; val_size] g;
  match parts with
  | [train_dataset; val_dataset] => Ok (train_dataset, val_dataset, g')
  | _ => Raise (Exn ValueError "not enough values to unpack")
  end.

(** Lines 35-37: the split of a dataset of length [n]. *)
Definition split (n : nat) (g : G) : result (list nat * list nat * G) :=
  '(train_size, val_size) ← split_sizes n;
  split_at n train_size val_size g.

(** The two index lists of a split, without the generator. *)
Definition split_indices (n : nat) (g : G) : result (list nat * list nat) :=
  '(train_dataset, val_dataset, _) ← split n g;
  Ok (train_dataset, val_dataset).

(** The variables of the epoch loop. *)
Record loop_state := LoopState {
  model : Model;
  best_val_loss : float;
  gen : G
}.

(** Lines 57-68: the training phase and its average loss. *)
Definition train_phase (train_loader : DataLoader) (m : Model) (g : G)
    : result (Model * float * G) :=
  let (batches, g') := loader_batches train_loader g in
  let '(m', running_loss) :=
    foldl (fun '(m, running_loss) batch =>
             let (m', loss) := train_step m batch in
             (m', PrimFloat.add running_loss loss))
          (m, 0%float) batches in
  avg_train_loss ← truediv running_loss (loader_len train_loader);
  Ok (m', avg_train_loss, g').

(** Lines 71-80: the validation phase and its average loss. *)
Definition validate_phase (val_loader : DataLoader) (m : Model) (g : G)
    : result (float * G) :=
  let (batches, g') := loader_batches val_loader g in
  let val_loss :=
    foldl (fun val_loss batch => PrimFloat.add val_loss (eval_loss m batch))
          0%float batches in
  avg_val_loss ← truediv val_loss (loader_len val_loader);
  Ok (avg_val_loss, g').

Definition best_model_path (base : string) : string :=
  path_join (WEIGHTS_DIR base) ("best_" +:+ MODEL_NAME).

Definition model_path (base : string) : string :=
  path_join (WEIGHTS_DIR base) MODEL_NAME.

(** Lines 91-96: keep the parameters when the loss improved. *)
Definition save_best (base : string) (avg_val_loss : float) (m : Model)
    (best : float) : io float :=
  if PrimFloat.ltb avg_val_loss best then
    _ ← os_makedirs (WEIGHTS_DIR base);
    _ ← torch_save (state_dict m) (best_model_path base);
    _ ← print ("  ✓ New best model saved (val_loss: " +:+
               format_6f avg_val_loss +:+ ")");
    mret avg_val_loss
  else mret best.

(** Lines 56-80: both phases of one epoch. *)
Definition phases (train_loader val_loader : DataLoader) (st : loop_state)
    : result (Model * float * float * G) :=
  '(m, avg_train_loss, g) ← train_phase train_loader (model st) (gen st);
  '(avg_val_loss, g) ← validate_phase val_loader m g;
  Ok (m, avg_train_loss, avg_val_loss, g).

(** The average validation losses of [k] epochs in a row from the
    parameters [m] and the generator [g], and what the epochs leave. *)
Fixpoint val_losses (train_loader val_loader : DataLoader) (k : nat)
    (m : Model) (g : G) : result (list float * Model * G) :=
  match k with
  | O => Ok ([], m, g)
  | S k' =>
      '(m1, _, avg_val_loss, g1) ←
        phases train_loader val_loader (LoopState m inf g);
      '(rest, m', g') ← val_losses train_loader val_loader k' m1 g1;
      Ok (avg_val_loss :: rest, m', g')
  end.

(** The best-so-far record after the losses [vs], from [best]. *)
Definition running_best (best : float) (vs : list float) : float :=
  foldl (fun b v => if PrimFloat.ltb v b then v else b) best vs.

(** Each loss is strictly below the next one. *)
Definition increasing (vs : list float) : Prop :=
  ∀ i a b, vs !! i = Some a → vs !! S i = Some b → PrimFloat.ltb a b = true.

(** Lines 56-96: the body of the epoch loop. *)
Definition epoch_body (base : string) (train_loader val_loader : DataLoader)
    (epoch : nat) (st : loop_state) : io loop_state :=
  '(m, avg_train_loss, avg_val_loss, g) ←
    lift (phases train_loader val_loader st);
  _ ← print ("Epoch " +:+ pretty (epoch + 1) +:+ "/" +:+ pretty NUM_EPOCHS +:+
             " -> Train Loss: " +:+ format_6f avg_train_loss +:+
             " | Val Loss: " +:+ format_6f avg_val_loss);
  best ← save_best base avg_val_loss m (best_val_loss st);
  mret (LoopState m best g).

(** [for epoch in epochs: ...] *)
Fixpoint epoch_loop (base : string) (train_loader val_loader : DataLoader)
    (epochs : list nat) (st : loop_state) : io loop_state :=
  match epochs with
  | [] => mret st
  | epoch :: rest =>
      st' ← epoch_body base train_loader val_loader epoch st;
      epoch_loop base train_loader val_loader rest st'
  end.

(** Lines 101-122: the final weights, inside [try ... except]. *)
Definition finalize (base : string) (m : Model) : io unit :=
  try_except
    (_ ← print "Step 1: Creating weights directory (if it doesn't exist)...";
     _ ← os_makedirs (WEIGHTS_DIR base);
     _ ← print ("Step 2: Preparing to save model to: " +:+ model_path base);
     _ ← print "Step 3: Moving model to CPU for safe saving...";
     _ ← torch_save (state_dict (to_cpu m)) (model_path base);
     _ ← print "Step 4: torch.save command executed successfully.";
     print ("Model saved to " +:+ model_path base))
    (fun e =>
     _ ← print (newline +:+ "---! AN ERROR OCCURRED DURING SAVING !---");
     _ ← print ("Error type: " +:+ type_name (exn_class e));
     _ ← print ("Error message: " +:+ exn_msg e);
     print "The model was NOT saved.").

(** What the handler of lines 118-122 prints for [e]. *)
Definition saving_error_lines (e : exn) : list string :=
  [ newline +:+ "---! AN ERROR OCCURRED DURING SAVING !---";
    "Error type: " +:+ type_name (exn_class e);
    "Error message: " +:+ exn_msg e;
    "The model was NOT saved." ].

(** Lines 28-44: the dataset, the split, the loaders. *)
Definition load_data `{!Libm} (base : string) (h : heap) (g : G)
    : io (DataLoader * DataLoader * G) :=
  _ ← print "Loading dataset...";
  d ← read_disk;
  '(full_dataset, _) ← lift (dataset.init d h (DATA_DIR base) SUITE DATASET_TYPE);
  n ← lift (dataset.len full_dataset);
  '(train_size, val_size) ← lift (split_sizes n);
  '(train_dataset, val_dataset, g) ← lift (split_at n train_size val_size g);
  train_loader ← lift (new_loader train_dataset true);
  val_loader ← lift (new_loader val_dataset false);
  _ ← print ("Data loaded. Training size: " +:+ pretty train_size +:+
             ", Validation size: " +:+ pretty val_size);
  mret (train_loader, val_loader, g).

(** Lines 47-96: the network and the epoch loop. *)
Definition fit (base : string) (train_loader val_loader : DataLoader) (g : G)
    : io loop_state :=
  let (m, g) := unet_init g in
  _ ← print (newline +:+ "--- Entering Training Loop ---");
  epoch_loop base train_loader val_loader (seq 0 NUM_EPOCHS)
             (LoopState m inf g).

(** [train_model()]; [device] is [config.DEVICE]. *)
Definition train_model `{!Libm} (base device : string) (h : heap) (g : G)
    : io unit :=
  _ ← print ("--- Starting Training on " +:+ device +:+ " ---");
  _ ← print "--- Weights & Biases tracking is enabled ---";
  '(train_loader, val_loader, g) ← load_data base h g;
  st ← fit base train_loader val_loader g;
  _ ← print (newline +:+ "--- Training Finished ---");
  _ ← print "--- Proceeding to save model weights. ---";
  _ ← finalize base (model st);
  _ ← print (newline +:+ "Finalizing Weights & Biases run...");
  print "W&B run finished.".

End Train.

End train.

(** ** [exporter.py] *)

Module exporter.

Import config.

Section Exporter.
Context {G Model : Type} `{!Torch G Model}.

(** [torch.load(p)]: the bytes of a checkpoint file. *)
Definition read_checkpoint (d : disk) (p : string) : result (list Byte.byte) :=
  match files d !! p with
  | Some (Blob bytes) => Ok bytes
  | Some _ => Raise (Exn RuntimeError "Invalid magic number; corrupt file?")
  | None => Raise (cannot_open d p)
  end.

Definition weights_path (base : string) : string :=
  path_join (WEIGHTS_DIR base) MODEL_NAME.

Definition export_path (base : string) : string :=
  path_join (WEIGHTS_DIR base) "traced_unet_model.pt".

(** [export_model_to_torchscript()] *)
Definition export_model_to_torchscript (base : string) (g : G) : io unit :=
  _ ← print "--- Starting Model Export to TorchScript ---";
  d ← read_disk;
  if negb (exists_ d (weights_path base)) then
    _ ← print ("Error: Trained weights file not found at '" +:+
               weights_path base +:+ "'");
    _ ← print "Please run train.py to train and save the model first.";
    mret tt
  else
    _ ← print ("Loading trained weights from: " +:+ weights_path base);
    let (_, g) := unet_init g in
    bytes ← lift (read_checkpoint d (weights_path base));
    m ← lift (load_state_dict bytes);
    _ ← print "Model architecture created and weights loaded successfully.";
    _ ← print "Tracing model with dummy input...";
    let (traced, _) := trace_and_serialize m g in
    graph ← lift traced;
    _ ← print "Model traced successfully.";
    _ ← torch_save graph (export_path base);
    _ ← print (newline +:+ "--- Export SUCCESSFUL ---");
    print ("TorchScript model saved to: " +:+ export_path base).

End Exporter.

End exporter.

(** ** [load_camels_parameters] of [scripts/dataset_hdf5.py]

    What the function asks of pandas: whether [import pandas] finds the
    module, what [pd.read_csv(path, delim_whitespace=True)] makes of a
    path on a disk, and [len(df)] of a table. *)
Class Pandas (DataFrame : Type) := {
  pandas_installed : bool;
  read_csv : disk -> string -> result DataFrame;
  df_len : DataFrame -> nat
}.

Definition param_filename (suite dataset_type : string) : string :=
  "params_" +:+ suite +:+ "_" +:+ dataset_type +:+ ".txt".

(** [load_camels_parameters(root_dir, suite, dataset_type)]; [None] is
    Python's [None]. *)
Definition load_camels_parameters {DataFrame : Type} `{!Pandas DataFrame}
    (root_dir suite dataset_type : string) : io (option DataFrame) :=
  if negb pandas_installed then
    _ ← print "Warning: pandas not installed. Cannot load parameters.";
    mret None
  else
    let param_file := path_join root_dir (param_filename suite dataset_type) in
    d ← read_disk;
    if negb (exists_ d param_file) then
      _ ← print ("Warning: Parameter file not found: " +:+ param_file);
      _ ← print "Simulations will not have associated parameters.";
      mret None
    else
      params_df ← lift (read_csv d param_file);
      _ ← print ("Loaded " +:+ pretty (df_len params_df) +:+
                 " parameter sets from " +:+ param_file);
      mret (Some params_df).

(** ** A scripted network, for examples

    The parameters are the list of the losses still to come: a training
    step drops the first of them, evaluation reports the one in front.
    A snapshot is as many bytes as there are losses left, plus one.
    [rejects_empty] is the behaviour of the sampler on an empty subset,
    [fault] tells which writes fail. *)

Definition scripted (rejects_empty : bool) (losses : list float)
    (fault : disk -> string -> list Byte.byte -> option (option nat * exn))
    : Torch (list nat) (list float) :=
  {| sampler_rejects_empty := rejects_empty;
     epoch_order := fun g l => (l, g);
     unet_init := fun g => (losses, g);
     train_step := fun m _ => (tl m, 0%float);
     eval_loss := fun m _ => hd PrimFloat.nan m;
     to_cpu := fun m => m;
     state_dict := fun m => repeat Byte.x01 (S (length m));
     save_fault := fault;
     load_state_dict := fun _ => Ok [];
     trace_and_serialize := fun _ g => (Ok [Byte.x00], g) |}.

Definition no_fault : disk -> string -> list Byte.byte -> option (option nat * exn) :=
  fun _ _ _ => None.

(** The disk is full: every write stops after one byte. *)
Definition disk_full : disk -> string -> list Byte.byte -> option (option nat * exn) :=
  fun _ _ _ => Some (Some 1%nat, Exn OSError "No space left on device").

(** Six decimals are not computed in examples. *)
Definition format_stub : Format := {| format_6f := fun _ => "_" |}.

(** ** Notions and data that the statements use *)

(** *** [int(n * 0.1)] against [n // 10]

    The product is taken in binary64.  That its integer part is the
    tenth of [n], rounded down, is checked by evaluation for every
    length up to [max_len]. *)

Definition max_len : nat := Z.to_nat 200000.

Definition val_size_is_tenth (z : Z) : bool :=
  match int_of_float (PrimFloat.mul (PrimFloat.of_uint63 (Uint63.of_Z z))
                                    train.one_tenth) with
  | Ok v => (v =? z / 10)%Z
  | Raise _ => false
  end.

Fixpoint tenth_from (count : nat) (z : Z) : bool :=
  match count with
  | O => true
  | S count' => if val_size_is_tenth z then tenth_from count' (z + 1) else false
  end.

(** An archive pair of two samples, each a map of one row and two
    columns. *)
Definition archive_pair : disk :=
  MkDisk
    {[ "data/Maps_Mcdm_IllustrisTNG_CV_z=0.00.hdf5" :=
         Hdf5File {[ "Maps_Mcdm" :=
           Array [2; 1; 2]%nat [1%float; 2%float; 3%float; 4%float] ]};
       "data/Maps_Mtot_IllustrisTNG_CV_z=0.00.hdf5" :=
         Hdf5File {[ "Maps_Mtot" :=
           Array [2; 1; 2]%nat [5%float; 6%float; 7%float; 8%float] ]} ]}
    ∅.

(** An HDF5 archive pair whose input holds two samples and whose target
    holds one. *)
Definition mismatched_pair : disk :=
  MkDisk
    {[ "data/Maps_Mcdm_IllustrisTNG_CV_z=0.00.hdf5" :=
         Hdf5File {[ "Maps_Mcdm" := Array [2; 1; 1]%nat [1%float; 2%float] ]};
       "data/Maps_Mtot_IllustrisTNG_CV_z=0.00.hdf5" :=
         Hdf5File {[ "Maps_Mtot" := Array [1; 1; 1]%nat [3%float] ]} ]}
    ∅.

(** A flat-array pair of [n] one-by-one maps of zeros, under
    [/app/data]. *)
Definition zero_maps (n : nat) : disk :=
  MkDisk
    {[ "/app/data/Maps_Mcdm_IllustrisTNG_CV_z=0.00.npy" :=
         NpyFile (Array [n; 1; 1]%nat (repeat PrimFloat.zero n));
       "/app/data/Maps_Mtot_IllustrisTNG_CV_z=0.00.npy" :=
         NpyFile (Array [n; 1; 1]%nat (repeat PrimFloat.zero n)) ]}
    ∅.

(** A run on ten maps whose first epoch has the validation loss 1. *)
Definition ten_map_run : result unit * world :=
  train.train_model
    (Generator0 := replay)
    (Torch0 := scripted true [0%float; 0%float; 0%float; 1%float] no_fault)
    (H := format_stub) (H0 := libm_id)
    "/app" "cpu" [] [] (boot (zero_maps 10)).

(** Loaders of one batch each, for examples. *)
Definition one_batch_train : DataLoader := MkDataLoader [0%nat] config.BATCH_SIZE true.
Definition one_batch_val : DataLoader := MkDataLoader [1%nat] config.BATCH_SIZE false.

(** What the exporter prints when the weights are missing. *)
Definition missing_report (base : string) : list event :=
  [ Print "--- Starting Model Export to TorchScript ---";
    Print ("Error: Trained weights file not found at '" +:+
           exporter.weights_path base +:+ "'");
    Print "Please run train.py to train and save the model first." ].

(** [m] takes every world to one that [R] relates to it, whether it
    returns or raises. *)
Definition always {A} (R : relation world) (m : io A) : Prop :=
  ∀ w, R w (m w).2.

(** From [w] to [w'] the file at [p] stays what it is, in every state
    the disk goes through. *)
Definition keeps (p : string) (w w' : world) : Prop :=
  (∃ evs, w_events w' = w_events w ++ evs) ∧
  ∃ ds, observable w' = observable w ++ ds ∧
        Forall (fun d => files d !! p = files (w_disk w) !! p) ds ∧
        files (w_disk w') !! p = files (w_disk w) !! p.

(** The final write ended in [e], and the handler said so. *)
Definition reported (e : exn) (w : world) : Prop :=
  ∃ before, stdout w = before ++ train.saving_error_lines e.

Section InPlaceNotions.
Context {G Model : Type} `{!Torch G Model}.
Context (p : string).

(** [bytes] is the snapshot of some parameters, and a write of it at [p]
    was started before [w']. *)
Definition snapshot (w' : world) (bytes : list Byte.byte) : Prop :=
  (∃ m : Model, bytes = state_dict m) ∧ Save p bytes ∈ w_events w'.

(** In the state [d] the file at [p] is what it was in [w], or the first
    [k] bytes of a snapshot. *)
Definition good (w w' : world) (d : disk) : Prop :=
  files d !! p = files (w_disk w) !! p ∨
  ∃ bytes k, snapshot w' bytes ∧ files d !! p = Some (Blob (take k bytes)).

(** From [w] to [w']: calls are only added, and every state the disk
    goes through is good. *)
Definition evolves (w w' : world) : Prop :=
  (∃ evs, w_events w' = w_events w ++ evs) ∧
  (∀ d, d ∈ observable w' → d ∈ observable w ∨ good w w' d) ∧
  good w w' (w_disk w').

(** In [w'] the file at [p] is what it was in [w], or a whole snapshot. *)
Definition complete (w w' : world) : Prop :=
  files (w_disk w') !! p = files (w_disk w) !! p ∨
  ∃ bytes, snapshot w' bytes ∧ files (w_disk w') !! p = Some (Blob bytes).

(** [m] goes through good states only, and leaves the file whole when it
    returns. *)
Definition safe {A} (m : io A) : Prop :=
  ∀ w, evolves w (m w).2 ∧ (is_ok (m w).1 = true → complete w (m w).2).

End InPlaceNotions.

(** What [val_loss / len(val_loader)] raises on a loader without
    batches. *)
Definition division_by_zero : exn :=
  Exn ZeroDivisionError "float division by zero".

(** Reading the dataset [name] of the archive at [p]: both steps of
    [h5py.File(p, 'r')[name]]. *)
Definition h5_read (d : disk) (p name : string) : result array :=
  f ← h5_open d p; h5_dataset f name.

(** The archive pair of [archive_pair] and a flat pair of the same
    arrays. *)
Definition twin_pairs : disk :=
  MkDisk
    {[ "data/Maps_Mcdm_IllustrisTNG_CV_z=0.00.hdf5" :=
         Hdf5File {[ "Maps_Mcdm" :=
           Array [2; 1; 2]%nat [1%float; 2%float; 3%float; 4%float] ]};
       "data/Maps_Mtot_IllustrisTNG_CV_z=0.00.hdf5" :=
         Hdf5File {[ "Maps_Mtot" :=
           Array [2; 1; 2]%nat [5%float; 6%float; 7%float; 8%float] ]};
       "data/Maps_Mcdm_IllustrisTNG_CV_z=0.00.npy" :=
         NpyFile (Array [2; 1; 2]%nat [1%float; 2%float; 3%float; 4%float]);
       "data/Maps_Mtot_IllustrisTNG_CV_z=0.00.npy" :=
         NpyFile (Array [2; 1; 2]%nat [5%float; 6%float; 7%float; 8%float]) ]}
    ∅.

(** From [w] to [w'] no write is started. *)
Definition no_save (w w' : world) : Prop :=
  saves (w_events w') = saves (w_events w).

(** From [w] to [w'] the writes that are started are those at [ps], in
    this order. *)
Definition saved (ps : list string) (w w' : world) : Prop :=
  saves (w_events w') = saves (w_events w) ++ ps.

(** From [w] to [w'] at most [k] writes are started, all of them at
    [p]. *)
Definition at_most (p : string) (k : nat) (w w' : world) : Prop :=
  ∃ j, (j ≤ k)%nat ∧ saved (repeat p j) w w'.

(** What the exporter computes before it writes: the checkpoint is read
    and loaded into a new network, and the network is traced. *)
Definition traced_graph {G Model : Type} `{!Torch G Model} (base : string)
    (g : G) (d : disk) : result (list Byte.byte) :=
  bytes ← exporter.read_checkpoint d (exporter.weights_path base);
  m ← load_state_dict bytes;
  (trace_and_serialize m (unet_init g).2).1.

(** A weights directory that holds a final checkpoint of one byte. *)
Definition trained_disk : disk :=
  MkDisk {[ "/app/weights/unet_illustristng_cv_v1.pth" := Blob [Byte.x01] ]}
         {[ "/app/weights" ]}.

(** A reader of tables for examples: a table is the bytes of its file. *)
Definition pandas_bytes : Pandas (list Byte.byte) :=
  {| pandas_installed := true;
     read_csv := fun d p =>
       match files d !! p with
       | Some (Blob bytes) => Ok bytes
       | _ => Raise (Exn ValueError "No columns to parse from file")
       end;
     df_len := length |}.

(** A data directory that holds a parameter table of two bytes. *)
Definition params_disk : disk :=
  MkDisk {[ "data/params_IllustrisTNG_CV.txt" := Blob [Byte.x31; Byte.x32] ]} ∅.

(* ===================================================================== *)
(** * Part II: properties *)
(* ===================================================================== *)

(** ** The split *)

Section Randperm.
Context {G : Type} `{!Generator G}.

(** Exchanging two entries rearranges the list. *)
Lemma swap_perm r i j : swap r i j ≡ₚ r.
Proof.
  unfold swap.
  destruct (r !! i) as [x|] eqn:Hi; [|done].
  destruct (r !! j) as [y|] eqn:Hj; [|done].
  by apply Permutation_insert_swap.
Qed.

Lemma randperm_loop_perm k i n r (g : G) : (randperm_loop k i n r g).1 ≡ₚ r.
Proof.
  revert i r g. induction k as [|k IH]; intros i r g; simpl; [done|].
  destruct (random g) as [u g']. rewrite IH. apply swap_perm.
Qed.

(** [randperm(n)] holds each of [0 .. n-1] once. *)
Lemma randperm_perm n (g : G) : (randperm n g).1 ≡ₚ seq 0 n.
Proof. apply randperm_loop_perm. Qed.

Lemma randperm_length n (g : G) : length (randperm n g).1 = n.
Proof. by rewrite randperm_perm, length_seq. Qed.

(** The loop reads the generator through its first [k] draws only. *)
Lemma randperm_loop_draws k i n r (g1 g2 : G) :
  draws k g1 = draws k g2 →
  (randperm_loop k i n r g1).1 = (randperm_loop k i n r g2).1.
Proof.
  revert i r g1 g2. induction k as [|k IH]; intros i r g1 g2 Hd; simpl in *;
    [done|].
  destruct (random g1) as [u1 g1'], (random g2) as [u2 g2'].
  injection Hd as -> Hd. by apply IH.
Qed.

End Randperm.

Lemma tenth_from_spec count z i :
  tenth_from count z = true → (i < count)%nat →
  val_size_is_tenth (z + Z.of_nat i) = true.
Proof.
  revert z i. induction count as [|count IH]; intros z i Hc Hi; [lia|].
  simpl in Hc. destruct (val_size_is_tenth z) eqn:Hz; [|done].
  destruct i as [|i].
  - by rewrite Z.add_0_r.
  - replace (z + Z.of_nat (S i))%Z with (z + 1 + Z.of_nat i)%Z by lia.
    apply IH; [done|lia].
Qed.

Lemma tenth_checked : tenth_from (S max_len) 0 = true.
Proof. vm_compute. reflexivity. Qed.

Lemma val_size_tenth (n : nat) :
  (n ≤ max_len)%nat → train.val_size n = Ok (Z.of_nat (n / 10)).
Proof.
  intros Hn.
  pose proof (tenth_from_spec (S max_len) 0 n tenth_checked ltac:(lia)) as Hc.
  unfold val_size_is_tenth in Hc. rewrite Z.add_0_l in Hc.
  unfold train.val_size, float_of_len.
  destruct (int_of_float _) as [v|]; [|done].
  apply Z.eqb_eq in Hc. subst v. f_equal.
  by rewrite Nat2Z.inj_div.
Qed.

Section Split.
Context {G : Type} `{!Generator G}.

Lemma slice_prefix {A} (l : list A) (t : nat) :
  (t ≤ length l)%nat → slice l 0 (Z.of_nat t) = take t l.
Proof.
  intros Ht. unfold slice, clamp.
  destruct (0 <? 0)%Z eqn:E0; [lia|].
  destruct (Z.of_nat t <? 0)%Z eqn:Et; [lia|].
  rewrite !Z.min_l by lia. simpl. rewrite drop_0. f_equal. lia.
Qed.

Lemma slice_suffix {A} (l : list A) (t : nat) :
  (t ≤ length l)%nat → slice l (Z.of_nat t) (Z.of_nat (length l)) = drop t l.
Proof.
  intros Ht. unfold slice, clamp.
  destruct (Z.of_nat t <? 0)%Z eqn:Et; [lia|].
  destruct (Z.of_nat (length l) <? 0)%Z eqn:El; [lia|].
  rewrite !Z.min_l by lia. rewrite Nat2Z.id.
  apply take_ge. rewrite length_drop. lia.
Qed.

(** [random_split] with two lengths that fit: the head and the tail of
    one permutation. *)
Lemma random_split_two (n t : nat) (g : G) :
  (t ≤ n)%nat →
  random_split n [Z.of_nat t; Z.of_nat (n - t)] g =
    Ok ([take t (randperm n g).1; drop t (randperm n g).1], (randperm n g).2).
Proof.
  intros Ht. unfold random_split. simpl.
  replace (Z.of_nat t + (Z.of_nat (n - t) + 0))%Z with (Z.of_nat n) by lia.
  rewrite Z.eqb_refl. simpl. rewrite Nat2Z.id.
  pose proof (randperm_length n g) as Hlen.
  destruct (randperm n g) as [indices g']. simpl in *.
  do 3 f_equal.
  - replace (0 + Z.of_nat t - Z.of_nat t)%Z with 0%Z by lia.
    rewrite Z.add_0_l. apply slice_prefix. lia.
  - f_equal.
    replace (0 + Z.of_nat t + Z.of_nat (n - t) - Z.of_nat (n - t))%Z
      with (Z.of_nat t) by lia.
    replace (0 + Z.of_nat t + Z.of_nat (n - t))%Z
      with (Z.of_nat (length indices)) by lia.
    apply slice_suffix. lia.
Qed.

(** What [split] returns for a length within [max_len]. *)
Lemma split_eq (n : nat) (g : G) :
  (n ≤ max_len)%nat →
  train.split n g =
    Ok (take (n - n / 10) (randperm n g).1,
        drop (n - n / 10) (randperm n g).1, (randperm n g).2).
Proof.
  intros Hn. unfold train.split, train.split_sizes, train.split_at.
  rewrite (val_size_tenth n Hn). cbn -[random_split Z.of_nat Z.sub Nat.div].
  pose proof (Nat.Div0.div_le_upper_bound n 10 n ltac:(lia)) as Hle.
  replace (Z.of_nat n - Z.of_nat (n / 10))%Z with (Z.of_nat (n - n / 10)) by lia.
  replace (Z.of_nat (n / 10)) with (Z.of_nat (n - (n - n / 10))) by lia.
  rewrite random_split_two by lia. done.
Qed.

End Split.



(** C3: the split is a function of the length and of the numbers the
    generator yields: two generator states that yield the same first
    [n - 1] numbers (as two states set from the same seed do) give the
    same pair of index lists. *)
Theorem split_deterministic {G : Type} `{!Generator G} (n : nat) (g1 g2 : G) :
  draws (n - 1) g1 = draws (n - 1) g2 →
  train.split_indices n g1 = train.split_indices n g2.
Proof.
  intros Hd. unfold train.split_indices, train.split, train.split_sizes,
    train.split_at.
  destruct (train.val_size n) as [v|e]; [|done].
  cbn -[random_split Z.of_nat Z.sub].
  unfold random_split.
  destruct (negb _) eqn:Hsum; [done|].
  apply negb_false_iff, Z.eqb_eq in Hsum. rewrite Hsum, Nat2Z.id.
  pose proof (randperm_loop_draws (n - 1) 0 n (seq 0 n) g1 g2 Hd) as Heq.
  fold (randperm n g1) in Heq. fold (randperm n g2) in Heq.
  destruct (randperm n g1) as [i1 g1'], (randperm n g2) as [i2 g2'].
  simpl in Heq. subst i2. done.
Qed.

(** Two recorded streams that differ only after the eleventh number
    split twelve samples alike. *)
Lemma split_deterministic_witness :
  train.split_indices (Generator0 := replay) 12 [7; 1; 8; 2; 8; 1; 8; 2; 8; 4; 5; 9] =
  train.split_indices (Generator0 := replay) 12 [7; 1; 8; 2; 8; 1; 8; 2; 8; 4; 5; 0; 3].
Proof.
  apply (split_deterministic (Generator0 := replay) 12). reflexivity.
Defined.

Example split_twelve :
  train.split_indices (Generator0 := replay) 12 [7; 1; 8; 2; 8; 1; 8; 2; 8; 4; 5; 9] =
  Ok ([7; 2; 10; 5; 4; 6; 8; 9; 3; 1; 11], [0]).
Proof. vm_compute. reflexivity. Qed.

(** ** Buffers and windows *)

Section Heap.
Context `{!Libm}.

Lemma values_alloc_old (h : heap) xs a :
  (buf a < length h)%nat → values (h ++ [xs]) a = values h a.
Proof. intros Hb. unfold values. by rewrite lookup_app_l. Qed.

Lemma values_alloc_new (h : heap) xs shape :
  values (h ++ [xs]) (NdArray (length h) 0 shape) = take (numel shape) xs.
Proof.
  unfold values. cbn [buf offset dims]. rewrite lookup_app_r by lia.
  by rewrite Nat.sub_diag.
Qed.

Lemma values_length (h : heap) a : (length (values h a) ≤ numel (dims a))%nat.
Proof.
  unfold values. destruct (h !! buf a); simpl; [|lia].
  rewrite length_take. lia.
Qed.

Lemma np_log1p_eq (h : heap) a :
  np_log1p h a =
    (NdArray (length h) 0 (dims a), h ++ [map log1p (values h a)]).
Proof. done. Qed.

Lemma content_alloc_old (h : heap) xs a :
  (buf a < length h)%nat → content (h ++ [xs]) a = content h a.
Proof. intros Hb. unfold content. by rewrite values_alloc_old. Qed.

Lemma content_alloc_new (h : heap) xs shape :
  (length xs ≤ numel shape)%nat →
  content (h ++ [xs]) (NdArray (length h) 0 shape) = (shape, xs).
Proof.
  intros Hl. unfold content. rewrite values_alloc_new. by rewrite take_ge.
Qed.

(** The transform appends two cells, and its tensors show the [log1p]
    of what the two maps show, under one more leading axis. *)
Lemma sample_transform_eq (h : heap) x y :
  (buf y < length h)%nat →
  ∃ tx ty,
    sample_transform h x y =
      (tx, ty, h ++ [map log1p (values h x); map log1p (values h y)]) ∧
    buf tx = length h ∧ buf ty = S (length h) ∧
    read_pair (Ok (sample_transform h x y)) =
      Ok ((1 :: dims x, map log1p (values h x)),
          (1 :: dims y, map log1p (values h y))).
Proof.
  intros Hy. unfold sample_transform. rewrite !np_log1p_eq.
  rewrite (values_alloc_old h _ y Hy).
  set (vx := map log1p (values h x)). set (vy := map log1p (values h y)).
  assert (length vx ≤ numel (1 :: dims x))%nat as Hvx.
  { unfold vx. rewrite length_map. etrans; [apply values_length|]. simpl. lia. }
  assert (length vy ≤ numel (1 :: dims y))%nat as Hvy.
  { unfold vy. rewrite length_map. etrans; [apply values_length|]. simpl. lia. }
  eexists _, _. split; [by rewrite <-app_assoc|].
  split; [done|]. split; [by rewrite length_app; simpl; lia|].
  unfold read_pair, unsqueeze0, from_numpy. cbn [mbind result_bind Py.bind buf offset dims].
  rewrite (content_alloc_new (h ++ [vx]) vy _ Hvy).
  rewrite content_alloc_old by (rewrite length_app; simpl; lia).
  by rewrite (content_alloc_new h vx _ Hvx).
Qed.

End Heap.

(** ** The sample transform and the flat-array store *)

Section Transform.
Context `{!Libm}.

(** [log1p] is finite on what is finite and not negative, when the C
    library's [log1pf] is. *)
Lemma log1p_finite (v : f32) :
  (∀ x, is_finite x = true → nonneg x = true → is_finite (log1pf x) = true) →
  is_finite v = true → nonneg v = true → is_finite (log1p v) = true.
Proof.
  intros Hlib Hfin Hpos. destruct v as [s|s| |s m e]; try done.
  destruct s; [done|]. simpl. by apply Hlib.
Qed.

Lemma getitem_window (a : ndarray) idx w :
  Np.getitem a idx = Ok w → buf w = buf a.
Proof.
  unfold Np.getitem. destruct (dims a); [done|].
  destruct (_ <? _)%nat; [|done]. by intros [= <-].
Qed.

End Transform.




(** A finite binary64 that is too large for binary32, here the one
    nearest to 1e39, becomes infinite in the cast. *)
Example astype_overflow :
  astype_float32 0x1.78287f49c4a1dp+129%float = S754_infinity false.
Proof. vm_compute. reflexivity. Qed.

(** ** The structured-archive store *)

Section Hdf5.
Context `{!Libm}.

Ltac bind_cases H :=
  repeat match type of H with
  | context [mbind _ ?r] =>
      let E := fresh "E" in
      destruct r eqn:E; cbn [mbind result_bind Py.bind] in H; [|discriminate H]
  end.

(** What a successful construction in cached mode says of the disk and
    of the heap. *)
Lemma init_cached_inv d (h : heap) root suite ty z self hc :
  dataset_hdf5.init d h root suite ty z true = Ok (self, hc) →
  ∃ fi ft a b,
    h5_open d (dataset_hdf5.input_path self) = Ok fi ∧
    h5_dataset fi "Maps_Mcdm" = Ok a ∧
    h5_open d (dataset_hdf5.target_path self) = Ok ft ∧
    h5_dataset ft "Maps_Mtot" = Ok b ∧
    hc = h ++ [map astype_float32 (data a); map astype_float32 (data b)] ∧
    dataset_hdf5.cache_in_memory self = true ∧
    dataset_hdf5.input_cache self = Some (NdArray (length h) 0 (shape a)) ∧
    dataset_hdf5.target_cache self = Some (NdArray (S (length h)) 0 (shape b)) ∧
    dataset_hdf5.input_path self =
      path_join root (dataset_hdf5.input_filename suite ty z) ∧
    dataset_hdf5.target_path self =
      path_join root (dataset_hdf5.target_filename suite ty z).
Proof.
  unfold dataset_hdf5.init. intros Hinit.
  destruct (negb (exists_ d _)); [done|].
  destruct (negb (exists_ d _)); [done|].
  bind_cases Hinit. unfold of_array, alloc in Hinit.
  injection Hinit as <- <-. cbn.
  eexists _, _, _, _. repeat (split; [eassumption || reflexivity|]).
  rewrite length_app, <-app_assoc. simpl.
  repeat split; try done. do 2 f_equal. lia.
Qed.

Lemma init_lazy_inv d (h : heap) root suite ty z self hl :
  dataset_hdf5.init d h root suite ty z false = Ok (self, hl) →
  hl = h ∧
  dataset_hdf5.cache_in_memory self = false ∧
  dataset_hdf5.input_path self =
    path_join root (dataset_hdf5.input_filename suite ty z) ∧
  dataset_hdf5.target_path self =
    path_join root (dataset_hdf5.target_filename suite ty z).
Proof.
  unfold dataset_hdf5.init. intros Hinit.
  destruct (negb (exists_ d _)); [done|].
  destruct (negb (exists_ d _)); [done|].
  bind_cases Hinit. by injection Hinit as <- <-.
Qed.

(** Entry [idx] of an array: the window on a cast copy shows the cast of
    what h5py reads from the file, and the two fail together. *)
Lemma window_entry (h : heap) (a : array) l idx :
  h !! l = Some (map astype_float32 (data a)) →
  match Np.getitem (NdArray l 0 (shape a)) idx, h5_getitem a idx with
  | Ok w, Ok e =>
      buf w = l ∧ dims w = shape e ∧
      values h w = map astype_float32 (data e) ∧
      (length (data e) ≤ numel (shape e))%nat
  | Raise _, Raise _ => True
  | _, _ => False
  end.
Proof.
  intros Hl. unfold Np.getitem, h5_getitem. cbn [dims buf offset].
  destruct (shape a) as [|n rest]; [done|].
  destruct (idx <? n)%nat; [|done].
  cbn [buf dims shape data]. unfold values. cbn [buf dims offset].
  rewrite Hl. rewrite <-firstn_map, <-skipn_map.
  repeat split; try done. rewrite length_take. lia.
Qed.

End Hdf5.



(** Sample 1 of that pair, read lazily: the values 3, 4 and 7, 8 as
    binary32, under the shape (1, 1, 2). *)
Example lazy_read_sample :
  (self ← dataset_hdf5.init archive_pair [] "data" "IllustrisTNG" "CV" "0.00" false;
   read_pair (dataset_hdf5.getitem (H := libm_id) archive_pair self.2 self.1 1)) =
  Ok (([1; 1; 2]%nat, [S754_finite false 12582912 (-22); S754_finite false 8388608 (-21)]),
      ([1; 1; 2]%nat, [S754_finite false 14680064 (-21); S754_finite false 8388608 (-20)])).
Proof. vm_compute. reflexivity. Qed.

(** *** Sample counts that differ *)

(** The flat-array constructor raises [ValueError] when the two arrays
    differ in their leading dimension. *)
Lemma npy_init_mismatch d (h : heap) root suite ty a b n m :
  files d !! path_join root (dataset.input_filename suite ty) = Some (NpyFile a) →
  files d !! path_join root (dataset.target_filename suite ty) = Some (NpyFile b) →
  shape a = n :: drop 1 (shape a) →
  shape b = m :: drop 1 (shape b) →
  n ≠ m →
  dataset.init d h root suite ty =
    Raise (Exn ValueError "Input and target files have a different number of maps!").
Proof.
  intros Ha Hb Hn Hm Hne. unfold dataset.init, exists_, np_load.
  rewrite Ha, Hb.
  rewrite !bool_decide_eq_true_2 by eauto. cbn -[String.append].
  rewrite Hn, Hm. cbn -[String.append].
  destruct (n =? m)%nat eqn:E; [apply Nat.eqb_eq in E; done|done].
Qed.

(** C1, where the code departs from it: on that pair the HDF5
    constructor returns a dataset of two samples, in lazy mode and in
    cached mode (with caches of two and of one map); it never compares
    the two counts.  Sample 1 then fails when it is read. *)
Theorem hdf5_init_accepts_mismatch :
  (∃ self,
     dataset_hdf5.init mismatched_pair [] "data" "IllustrisTNG" "CV" "0.00" false
       = Ok (self, []) ∧
     dataset_hdf5.len self = 2%nat) ∧
  (∃ self h,
     dataset_hdf5.init mismatched_pair [] "data" "IllustrisTNG" "CV" "0.00" true
       = Ok (self, h) ∧
     dataset_hdf5.len self = 2%nat ∧
     dims <$> dataset_hdf5.input_cache self = Some [2; 1; 1]%nat ∧
     dims <$> dataset_hdf5.target_cache self = Some [1; 1; 1]%nat ∧
     is_ok (dataset_hdf5.getitem (H := libm_id) mismatched_pair h self 1) = false).
Proof.
  split.
  - eexists. split; [vm_compute; reflexivity|reflexivity].
  - eexists _, _. split; [vm_compute; reflexivity|].
    repeat split.
Qed.

(** The same counts in flat arrays are refused. *)
Example npy_init_refuses_mismatch :
  dataset.init
    (MkDisk
       {[ "data/Maps_Mcdm_IllustrisTNG_CV_z=0.00.npy" :=
            NpyFile (Array [2; 1; 1]%nat [1%float; 2%float]);
          "data/Maps_Mtot_IllustrisTNG_CV_z=0.00.npy" :=
            NpyFile (Array [1; 1; 1]%nat [3%float]) ]} ∅)
    [] "data" "IllustrisTNG" "CV" =
  Raise (Exn ValueError "Input and target files have a different number of maps!").
Proof. vm_compute. reflexivity. Qed.

(** ** Paths *)

Lemma path_join_inj_r (a b1 b2 : string) :
  startswith_sep b1 = false → startswith_sep b2 = false →
  path_join a b1 = path_join a b2 → b1 = b2.
Proof.
  unfold path_join. intros -> ->.
  destruct (_ || _).
  - apply (inj (String.append a)).
  - intros Heq. apply (inj (String.append a)) in Heq.
    by apply (inj (String.append "/")) in Heq.
Qed.

Example MODEL_NAME_eq : config.MODEL_NAME = "unet_illustristng_cv_v1.pth".
Proof. reflexivity. Qed.

(** The best and the final checkpoint are different files. *)
Lemma best_path_ne_model_path base :
  train.best_model_path base ≠ train.model_path base.
Proof.
  unfold train.best_model_path, train.model_path. intros Heq.
  apply path_join_inj_r in Heq; [|done|done]. vm_compute in Heq. discriminate.
Qed.

(** ** Export *)

(** C2, as the code has it: when nothing exists at the weights path, the
    exporter returns without raising; it has printed a line that names
    the path, the disk is as it was (no graph file, no weights written
    by a training run), and no write was attempted. *)
Theorem export_missing_checkpoint {G Model : Type} `{!Torch G Model}
    (base : string) (g : G) (w : world) :
  exists_ (w_disk w) (exporter.weights_path base) = false →
  exporter.export_model_to_torchscript base g w =
    (Ok tt, World (w_disk w) (w_past w) (w_events w ++ missing_report base)).
Proof.
  intros Hex. unfold exporter.export_model_to_torchscript.
  unfold mbind, io_bind, Io.bind, print, read_disk, log. cbn [w_disk w_past w_events].
  rewrite Hex. cbn [negb]. unfold mret, io_ret, Io.ret. cbn [w_disk w_past w_events].
  unfold missing_report. by rewrite <-!app_assoc.
Qed.

Lemma export_missing_checkpoint_witness :
  exporter.export_model_to_torchscript (Torch0 := scripted true [] no_fault)
    "/app" [] (boot Disk.empty) =
  (Ok tt, World Disk.empty [] (missing_report "/app")).
Proof.
  apply (export_missing_checkpoint (Torch0 := scripted true [] no_fault)
           "/app" [] (boot Disk.empty)).
  vm_compute. reflexivity.
Defined.

(** C2 as stated fails: on an empty disk the exporter does not raise,
    it returns. *)
Lemma export_missing_returns :
  exists_ Disk.empty (exporter.weights_path "/app") = false ∧
  (exporter.export_model_to_torchscript (Torch0 := scripted true [] no_fault)
     "/app" [] (boot Disk.empty)).1 = Ok tt ∧
  ∀ e, (exporter.export_model_to_torchscript (Torch0 := scripted true [] no_fault)
          "/app" [] (boot Disk.empty)).1 ≠ Raise e.
Proof.
  split; [vm_compute; reflexivity|].
  split; [vm_compute; reflexivity|].
  intros e. vm_compute. discriminate.
Qed.

(** ** Effects on the disk *)

Lemma makedirs_files d p d' : makedirs d p = Ok d' → files d' = files d.
Proof.
  unfold makedirs. destruct (files d !! p); [done|]. by intros [= <-].
Qed.

Lemma written_other d p bytes k q :
  q ≠ p → files (written d p bytes k) !! q = files d !! q.
Proof. intros Hne. simpl. by rewrite lookup_insert_ne. Qed.

Lemma written_at d p bytes k :
  files (written d p bytes k) !! p = Some (Blob (take k bytes)).
Proof. simpl. by rewrite lookup_insert_eq. Qed.

Lemma written_at_all d p bytes :
  files (written d p bytes (length bytes)) !! p = Some (Blob bytes).
Proof. by rewrite written_at, firstn_all. Qed.

(** ** The order on binary64 *)

Ltac cmp_cases :=
  repeat match goal with
  | |- context [Z.compare ?a ?b] => destruct (Z.compare_spec a b)
  | H : context [Z.compare ?a ?b] |- _ => destruct (Z.compare_spec a b)
  | |- context [Pos.compare_cont Eq ?a ?b] =>
      change (Pos.compare_cont Eq a b) with (Pos.compare a b);
      destruct (Pos.compare_spec a b)
  | H : context [Pos.compare_cont Eq ?a ?b] |- _ =>
      change (Pos.compare_cont Eq a b) with (Pos.compare a b) in H;
      destruct (Pos.compare_spec a b)
  end.

Ltac sf_order :=
  unfold SFltb, SFeqb, SFcompare; intros;
  repeat match goal with
  | x : spec_float |- _ => destruct x as [[]|[]| |[] ? ?]
  end;
  simpl in *; try discriminate; try reflexivity; try congruence;
  cmp_cases; simpl in *; try discriminate; try reflexivity; try congruence;
  try lia.

Lemma SFltb_trans x y z :
  SFltb x y = true → SFltb y z = true → SFltb x z = true.
Proof. sf_order. Qed.

Lemma SFltb_asym x y : SFltb x y = true → SFltb y x = false.
Proof. sf_order. Qed.

Lemma SFltb_neg_trans x b v :
  SFltb x b = true → SFltb v b = false → v ≠ S754_nan → SFltb x v = true.
Proof. sf_order. Qed.

Lemma SFeqb_refl x : x ≠ S754_nan → SFeqb x x = true.
Proof. sf_order. Qed.

Lemma is_nan_false x : is_nan x = false → Prim2SF x ≠ S754_nan.
Proof.
  unfold is_nan. rewrite FloatAxioms.eqb_spec. intros Hx Hnan. rewrite Hnan in Hx. done.
Qed.

(** [<] on floats is transitive. *)
Lemma ltb_trans x y z :
  PrimFloat.ltb x y = true → PrimFloat.ltb y z = true → PrimFloat.ltb x z = true.
Proof. rewrite !FloatAxioms.ltb_spec. apply SFltb_trans. Qed.

Lemma ltb_asym x y : PrimFloat.ltb x y = true → PrimFloat.ltb y x = false.
Proof. rewrite !FloatAxioms.ltb_spec. apply SFltb_asym. Qed.

(** What is below [b] is below whatever is not below [b], NaN apart. *)
Lemma ltb_neg_trans x b v :
  PrimFloat.ltb x b = true → PrimFloat.ltb v b = false → is_nan v = false →
  PrimFloat.ltb x v = true.
Proof.
  rewrite !FloatAxioms.ltb_spec. intros Hx Hv Hn.
  eapply SFltb_neg_trans; eauto using is_nan_false.
Qed.

Lemma ltb_nan_l x y : is_nan x = true → PrimFloat.ltb x y = false.
Proof.
  unfold is_nan. rewrite FloatAxioms.eqb_spec, FloatAxioms.ltb_spec. intros Hx.
  destruct (Prim2SF x) as [s|s| |s m e] eqn:E; [| |done|];
    rewrite SFeqb_refl in Hx; done.
Qed.

(** ** Statements and relations between worlds *)

Section Always.
Context (R : relation world) `{!PreOrder R}.

Lemma always_ret {A} (a : A) : always R (mret a).
Proof. intros w. simpl. reflexivity. Qed.

Lemma always_lift {A} (r : result A) : always R (lift r).
Proof. intros w. simpl. reflexivity. Qed.

Lemma always_read_disk : always R read_disk.
Proof. intros w. simpl. reflexivity. Qed.

Lemma always_bind {A B} (m : io A) (k : A → io B) :
  always R m → (∀ a, always R (k a)) → always R (m ≫= k).
Proof.
  intros Hm Hk w. unfold mbind, io_bind, Io.bind.
  specialize (Hm w). destruct (m w) as [[a|e] w1]; simpl in *; [|done].
  etrans; [exact Hm|apply Hk].
Qed.

Lemma always_try {A} (body : io A) (handler : exn → io A) :
  always R body → (∀ e, always R (handler e)) → always R (try_except body handler).
Proof.
  intros Hm Hk w. unfold try_except.
  specialize (Hm w). destruct (body w) as [[a|e] w1]; simpl in *; [done|].
  etrans; [exact Hm|apply Hk].
Qed.

End Always.

Lemma observable_advance ds d w :
  observable (advance ds d w) = observable w ++ ds ++ [d].
Proof. unfold observable, advance. simpl. by rewrite <-!app_assoc. Qed.

#[local] Instance keeps_preorder p : PreOrder (keeps p).
Proof.
  split.
  - intros w. split; exists []; by rewrite app_nil_r.
  - intros w1 w2 w3 [[e1 He1] (ds1 & Ho1 & Hf1 & Hd1)]
                    [[e2 He2] (ds2 & Ho2 & Hf2 & Hd2)].
    split; [exists (e1 ++ e2); by rewrite He2, He1, <-app_assoc|].
    exists (ds1 ++ ds2). rewrite Ho2, Ho1, <-app_assoc. split; [done|].
    split; [|congruence].
    apply Forall_app. split; [done|].
    eapply Forall_impl; [exact Hf2|]. simpl. congruence.
Qed.

Lemma keeps_log p e w : keeps p w (log e w).
Proof. split; [by exists [e]|]. exists []. by rewrite app_nil_r. Qed.

Lemma keeps_advance p ds d w :
  Forall (fun d' => files d' !! p = files (w_disk w) !! p) (ds ++ [d]) →
  keeps p w (advance ds d w).
Proof.
  intros Hf. split; [exists []; by rewrite app_nil_r|].
  exists (ds ++ [d]). rewrite observable_advance.
  split; [done|]. split; [exact Hf|].
  rewrite Forall_app, Forall_singleton in Hf. by destruct Hf as [_ Hd].
Qed.

Section Keeps.
Context {G Model : Type} `{!Torch G Model}.

Lemma keeps_print p line : always (keeps p) (print line).
Proof. intros w. apply keeps_log. Qed.

Lemma keeps_makedirs p q : always (keeps p) (os_makedirs q).
Proof.
  intros w. unfold os_makedirs.
  destruct (makedirs (w_disk (log (Makedirs q) w)) q) as [d|e] eqn:Hmk; simpl.
  - etrans; [apply (keeps_log p (Makedirs q))|].
    apply keeps_advance. apply Forall_singleton.
    by rewrite (makedirs_files _ _ _ Hmk).
  - apply keeps_log.
Qed.

Lemma keeps_write_upto p q bytes k w :
  p ≠ q → keeps p w (write_upto q bytes k w).
Proof.
  intros Hne. apply keeps_advance. apply Forall_app. split.
  - apply Forall_forall. intros d Hd.
    apply list_elem_of_In, in_map_iff in Hd as (j & <- & _).
    by apply written_other.
  - apply Forall_singleton. by apply written_other.
Qed.

(** A write elsewhere leaves the file at [p] alone, even when it fails. *)
Lemma keeps_torch_save p q bytes :
  p ≠ q → always (keeps p) (torch_save bytes q).
Proof.
  intros Hne w. unfold torch_save.
  destruct (save_fault _ _ _) as [[[k|] e]|]; simpl;
    (etrans; [apply (keeps_log p (Save q bytes))|]);
    try apply keeps_write_upto; done.
Qed.

End Keeps.

(** ** The final checkpoint *)

Lemma w_disk_log e w : w_disk (log e w) = w_disk w.
Proof. done. Qed.

Lemma stdout_print line w : stdout (log (Print line) w) = stdout w ++ [line].
Proof. unfold stdout, log. simpl. by rewrite omap_app. Qed.

Lemma events_log e w : w_events (log e w) = w_events w ++ [e].
Proof. done. Qed.

Lemma events_write_upto p bytes k w :
  w_events (write_upto p bytes k w) = w_events w.
Proof. done. Qed.

Lemma reported_after e w :
  reported e
    (log (Print "The model was NOT saved.")
       (log (Print ("Error message: " +:+ exn_msg e))
          (log (Print ("Error type: " +:+ type_name (exn_class e)))
             (log (Print (newline +:+ "---! AN ERROR OCCURRED DURING SAVING !---"))
                w)))).
Proof.
  exists (stdout w). rewrite !stdout_print, <-!app_assoc. done.
Qed.

Section FinalizeProps.
Context {G Model : Type} `{!Generator G, !Torch G Model, !Format}.

Lemma finalize_keeps base (m : Model) p :
  p ≠ train.model_path base → always (keeps p) (train.finalize base m).
Proof.
  intros Hne. unfold train.finalize.
  apply always_try; [apply _| |intros e];
    repeat first
      [ apply always_bind; [apply _| |intros ?]
      | apply keeps_print | apply keeps_makedirs | by apply keeps_torch_save ].
Qed.

End FinalizeProps.


(** On a full disk the final write stops after one byte: [finalize]
    still returns, and the output ends with the report. *)
Example finalize_on_full_disk :
  let r := train.finalize (Torch0 := scripted true [] disk_full)
             "/app" [1%float] (boot Disk.empty) in
  r.1 = Ok tt ∧
  files (w_disk r.2) !! train.model_path "/app" = Some (Blob [Byte.x01]) ∧
  stdout r.2 =
    [ "Step 1: Creating weights directory (if it doesn't exist)...";
      "Step 2: Preparing to save model to: /app/weights/unet_illustristng_cv_v1.pth";
      "Step 3: Moving model to CPU for safe saving..." ] ++
    train.saving_error_lines (Exn OSError "No space left on device").
Proof. repeat split; vm_compute; reflexivity. Qed.

(** ** The best checkpoint is written in place *)

Section InPlace.
Context {G Model : Type} `{!Torch G Model}.
Context (p : string).

Local Abbreviation snapshot := (snapshot p).
Local Abbreviation good := (good p).
Local Abbreviation evolves := (evolves p).
Local Abbreviation complete := (complete p).
Local Abbreviation safe := (safe p).

Lemma snapshot_mono w1 w2 bytes :
  (∃ evs, w_events w2 = w_events w1 ++ evs) → snapshot w1 bytes → snapshot w2 bytes.
Proof.
  intros [evs He] [Hm Hs]. split; [done|]. rewrite He, elem_of_app. by left.
Qed.

Lemma good_trans w1 w2 w3 d :
  evolves w1 w2 → (∃ evs, w_events w3 = w_events w2 ++ evs) →
  good w2 w3 d → good w1 w3 d.
Proof.
  intros (He1 & _ & Hnow) He2 [Hsame|(bytes & k & Hs & Hd)].
  - destruct Hnow as [Hkeep|(bytes & k & Hs & Hd)].
    + left. congruence.
    + right. exists bytes, k. split; [by eapply snapshot_mono|congruence].
  - right. by exists bytes, k.
Qed.

Lemma good_mono w1 w2 w3 d :
  (∃ evs, w_events w3 = w_events w2 ++ evs) → good w1 w2 d → good w1 w3 d.
Proof.
  intros He [Hsame|(bytes & k & Hs & Hd)]; [by left|].
  right. exists bytes, k. split; [by eapply snapshot_mono|done].
Qed.

Lemma evolves_trans w1 w2 w3 : evolves w1 w2 → evolves w2 w3 → evolves w1 w3.
Proof.
  intros H12 H23.
  pose proof H12 as ([e1 He1] & Hs1 & Hn1).
  pose proof H23 as ([e2 He2] & Hs2 & Hn2).
  split; [exists (e1 ++ e2); by rewrite He2, He1, <-app_assoc|].
  split.
  - intros d Hd. destruct (Hs2 d Hd) as [Hd2|Hg].
    + destruct (Hs1 d Hd2) as [?|Hg]; [by left|].
      right. eapply good_mono; [|exact Hg]. by exists e2.
    + right. eapply good_trans; [exact H12| |exact Hg]. by exists e2.
  - eapply good_trans; [exact H12| |exact Hn2]. by exists e2.
Qed.

Lemma complete_trans w1 w2 w3 :
  evolves w2 w3 → complete w1 w2 → complete w2 w3 → complete w1 w3.
Proof.
  intros (He & _ & _) [Hk1|(b1 & Hs1 & Hd1)] [Hk2|(b2 & Hs2 & Hd2)].
  - left. congruence.
  - right. by exists b2.
  - right. exists b1. split; [by eapply snapshot_mono|congruence].
  - right. by exists b2.
Qed.

Lemma keeps_evolves w w' : keeps p w w' → evolves w w' ∧ complete w w'.
Proof.
  intros [He (ds & Ho & Hf & Hd)]. split; [|by left].
  split; [done|]. split; [|by left].
  intros d. rewrite Ho, elem_of_app. intros [?|Hin]; [by left|].
  right. left. rewrite Forall_forall in Hf. by apply Hf.
Qed.

Lemma safe_keeps {A} (m : io A) : always (keeps p) m → safe m.
Proof.
  intros Hm w. destruct (keeps_evolves _ _ (Hm w)). by split.
Qed.

Lemma safe_bind {A B} (m : io A) (k : A → io B) :
  safe m → (∀ a, safe (k a)) → safe (m ≫= k).
Proof.
  intros Hm Hk w. unfold mbind, io_bind, Io.bind.
  destruct (Hm w) as [He1 Hc1].
  destruct (m w) as [[a|e] w1]; simpl in *; [|by split].
  destruct (Hk a w1) as [He2 Hc2]. split.
  - by eapply evolves_trans.
  - intros Hok. eapply complete_trans; eauto.
Qed.

(** A write of a snapshot at [p]: every state it goes through shows a
    prefix, and the whole of it when the write returns. *)
Lemma safe_torch_save (m : Model) : safe (torch_save (state_dict m) p).
Proof.
  intros w. unfold torch_save. rewrite w_disk_log.
  set (bytes := state_dict m). set (w1 := log (Save p bytes) w).
  assert (∀ w', (∃ evs, w_events w' = w_events w1 ++ evs) → snapshot w' bytes)
    as Hsnap.
  { intros w' [evs He]. split; [by exists m|].
    rewrite He. unfold w1. rewrite events_log, !elem_of_app, list_elem_of_singleton.
    auto. }
  assert (∀ k, evolves w (write_upto p bytes k w1)) as Hup.
  { intros k.
    assert (snapshot (write_upto p bytes k w1) bytes) as Hs
      by (apply Hsnap; exists []; by rewrite app_nil_r).
    split; [by exists [Save p bytes]|]. split.
    - intros d. unfold write_upto. rewrite observable_advance.
      rewrite !elem_of_app, list_elem_of_singleton.
      intros [Hin|[Hin| ->]]; [by left| |].
      + right. right.
        apply list_elem_of_In, in_map_iff in Hin as (j & <- & _).
        exists bytes, j. split; [done|apply written_at].
      + right. right. exists bytes, k. split; [done|apply written_at].
    - right. exists bytes, k. split; [done|apply written_at]. }
  destruct (save_fault (w_disk w) p bytes) as [[[k|] e]|]; simpl.
  - split; [apply Hup|done].
  - split; [|done]. split; [by exists [Save p bytes]|].
    split; [intros d Hd; by left|by left].
  - split; [apply Hup|]. intros _. right. exists bytes.
    split; [apply Hsnap; exists []; by rewrite app_nil_r|].
    apply written_at_all.
Qed.

End InPlace.

Section Run.
Context {G Model : Type} `{!Generator G, !Torch G Model, !Format, !Libm}.

Ltac keeps_steps :=
  repeat first
    [ apply always_bind; [apply _| |intros ?]
    | apply keeps_print | apply keeps_makedirs
    | apply always_lift; apply _ | apply always_ret; apply _
    | apply always_read_disk; apply _ ].

Lemma safe_save_best base v (m : Model) best :
  safe (train.best_model_path base) (train.save_best base v m best).
Proof.
  unfold train.save_best. destruct (PrimFloat.ltb v best).
  - apply safe_bind; [apply safe_keeps, keeps_makedirs|intros _].
    apply safe_bind; [apply safe_torch_save|intros _].
    apply safe_keeps. keeps_steps.
  - apply safe_keeps. keeps_steps.
Qed.

Lemma safe_epoch_body base tl vl epoch (st : train.loop_state) :
  safe (train.best_model_path base) (train.epoch_body base tl vl epoch st).
Proof.
  unfold train.epoch_body.
  apply safe_bind; [apply safe_keeps; keeps_steps|intros [[[m tr] v] g]].
  apply safe_bind; [apply safe_keeps; keeps_steps|intros _].
  apply safe_bind; [apply safe_save_best|intros best].
  apply safe_keeps. keeps_steps.
Qed.

Lemma safe_epoch_loop base tl vl epochs (st : train.loop_state) :
  safe (train.best_model_path base) (train.epoch_loop base tl vl epochs st).
Proof.
  revert st. induction epochs as [|epoch rest IH]; intros st; simpl.
  - apply safe_keeps. keeps_steps.
  - apply safe_bind; [apply safe_epoch_body|intros st']. apply IH.
Qed.

Lemma keeps_load_data base (h : heap) (g : G) p :
  always (keeps p) (train.load_data base h g).
Proof.
  unfold train.load_data.
  apply always_bind; [apply _|apply keeps_print|intros _].
  apply always_bind; [apply _|apply always_read_disk; apply _|intros d].
  apply always_bind; [apply _|apply always_lift; apply _|intros [ds h']].
  apply always_bind; [apply _|apply always_lift; apply _|intros n].
  apply always_bind; [apply _|apply always_lift; apply _|intros [ts vs]].
  apply always_bind; [apply _|apply always_lift; apply _|intros [[tr va] g']].
  keeps_steps.
Qed.

Lemma safe_train_model base device (h : heap) (g : G) :
  safe (train.best_model_path base) (train.train_model base device h g).
Proof.
  unfold train.train_model.
  apply safe_bind; [apply safe_keeps, keeps_print|intros _].
  apply safe_bind; [apply safe_keeps, keeps_print|intros _].
  apply safe_bind; [apply safe_keeps, keeps_load_data|intros [[tl vl] g']].
  apply safe_bind.
  { unfold train.fit. destruct (unet_init g') as [m g''].
    apply safe_bind; [apply safe_keeps, keeps_print|intros _].
    apply safe_epoch_loop. }
  intros st.
  apply safe_bind; [apply safe_keeps, keeps_print|intros _].
  apply safe_bind; [apply safe_keeps, keeps_print|intros _].
  apply safe_bind.
  { apply safe_keeps, finalize_keeps, best_path_ne_model_path. }
  intros _. apply safe_keeps. keeps_steps.
Qed.

End Run.



Example ten_map_run_saves :
  saves (w_events ten_map_run.2) =
    [train.best_model_path "/app"; train.model_path "/app"].
Proof. vm_compute. reflexivity. Qed.

(** ** The checkpoint decision *)

Lemma running_best_lt (v best : float) (vs : list float) :
  Forall (fun u => is_nan u = false) vs →
  PrimFloat.ltb v (train.running_best best vs) = true ↔
  PrimFloat.ltb v best = true ∧ Forall (fun u => PrimFloat.ltb v u = true) vs.
Proof.
  unfold train.running_best. revert best.
  induction vs as [|u vs IH]; intros best Hnan; simpl.
  - split; [intros ?; by split|by intros [? _]].
  - apply Forall_cons in Hnan as [Hu Hnan]. rewrite (IH _ Hnan), Forall_cons.
    destruct (PrimFloat.ltb u best) eqn:Hub.
    + split; [intros [Hvu ?]|intros (? & ? & ?); by split].
      split; [by eapply ltb_trans|by split].
    + split; [intros [Hvb ?]|intros (? & ? & ?); by split].
      split; [done|]. split; [by eapply ltb_neg_trans|done].
Qed.

Lemma saves_log_save p bytes w :
  saves (w_events (log (Save p bytes) w)) = saves (w_events w) ++ [p].
Proof. unfold saves. rewrite events_log, omap_app. done. Qed.

Lemma saves_log_print line w :
  saves (w_events (log (Print line) w)) = saves (w_events w).
Proof. unfold saves. rewrite events_log, omap_app. simpl. by rewrite app_nil_r. Qed.

Lemma saves_log_makedirs p w :
  saves (w_events (log (Makedirs p) w)) = saves (w_events w).
Proof. unfold saves. rewrite events_log, omap_app. simpl. by rewrite app_nil_r. Qed.

Section Decision.
Context {G Model : Type} `{!Generator G, !Torch G Model, !Format}.

Lemma phases_best tl vl (st : train.loop_state) best :
  train.phases tl vl (train.LoopState (train.model st) best (train.gen st)) =
  train.phases tl vl st.
Proof. by destruct st. Qed.

(** An epoch that returns: the parameters and the generator are those of
    its two phases, the record is lowered when the loss is below it, and
    a write at the best path is started exactly then. *)
Lemma epoch_body_ok base tl vl epoch (st st' : train.loop_state) w w' :
  train.epoch_body base tl vl epoch st w = (Ok st', w') →
  ∃ m tr v g,
    train.phases tl vl st = Ok (m, tr, v, g) ∧
    st' = train.LoopState m
            (if PrimFloat.ltb v (train.best_val_loss st) then v
             else train.best_val_loss st) g ∧
    saves (w_events w') =
      saves (w_events w) ++
      (if PrimFloat.ltb v (train.best_val_loss st)
       then [train.best_model_path base] else []).
Proof.
  unfold train.epoch_body, train.save_best.
  unfold mbind at 1. unfold io_bind, Io.bind, lift.
  destruct (train.phases tl vl st) as [[[[m tr] v] g]|e]; [|done].
  intros Hbody. exists m, tr, v, g. split; [done|]. revert Hbody.
  unfold mbind, io_bind, Io.bind, print, mret, io_ret, Io.ret.
  destruct (PrimFloat.ltb v (train.best_val_loss st)).
  - unfold os_makedirs, torch_save. rewrite ?w_disk_log.
    destruct (makedirs _ _) as [d1|e]; [|done]. cbn [w_disk advance].
    destruct (save_fault _ _ _) as [[[k|] e]|]; try done.
    intros [= <- <-]. split; [done|].
    rewrite saves_log_print, events_write_upto, saves_log_save.
    change (w_events (advance ?ds ?d ?w0)) with (w_events w0).
    by rewrite saves_log_makedirs, saves_log_print.
  - intros [= <- <-]. split; [done|].
    by rewrite saves_log_print, app_nil_r.
Qed.

(** After [k] epochs that return, the record is the running best of
    their validation losses. *)
Lemma epoch_loop_ok base tl vl epochs (st st' : train.loop_state) w w' :
  train.epoch_loop base tl vl epochs st w = (Ok st', w') →
  ∃ vs,
    train.val_losses tl vl (length epochs) (train.model st) (train.gen st) =
      Ok (vs, train.model st', train.gen st') ∧
    train.best_val_loss st' = train.running_best (train.best_val_loss st) vs.
Proof.
  revert st w. induction epochs as [|epoch rest IH]; intros st w; simpl.
  - intros [= <- <-]. by exists [].
  - unfold mbind, io_bind, Io.bind.
    destruct (train.epoch_body base tl vl epoch st w) as [[st1|e] w1] eqn:Hbody;
      [|done].
    intros Hrest. apply epoch_body_ok in Hbody as (m & tr & v & g & Hph & -> & _).
    apply IH in Hrest as (vs & Hvs & Hbest). simpl in Hvs, Hbest.
    exists (v :: vs). rewrite phases_best, Hph.
    cbn [mbind result_bind Py.bind]. rewrite Hvs. done.
Qed.

End Decision.

Lemma increasing_not_nan (vs : list float) (v : float) :
  train.increasing (vs ++ [v]) → Forall (fun u => is_nan u = false) vs.
Proof.
  intros Hinc. apply Forall_lookup. intros i u Hu.
  assert (is_Some ((vs ++ [v]) !! S i)) as [b Hb].
  { apply lookup_lt_is_Some. apply lookup_lt_Some in Hu.
    rewrite length_app. simpl. lia. }
  pose proof (Hinc i u b ltac:(by apply lookup_app_l_Some) Hb) as Hlt.
  destruct (is_nan u) eqn:Hn; [|done].
  by rewrite ltb_nan_l in Hlt.
Qed.

Lemma increasing_last (vs : list float) (v : float) :
  train.increasing (vs ++ [v]) → vs ≠ [] →
  ∃ u, u ∈ vs ∧ PrimFloat.ltb u v = true.
Proof.
  intros Hinc Hne. destruct (last vs) as [u|] eqn:Hlast.
  - exists u. rewrite last_lookup in Hlast.
    split; [by eapply list_elem_of_lookup_2|].
    apply (Hinc (pred (length vs)) u v); [by apply lookup_app_l_Some|].
    rewrite lookup_app_r by lia.
    destruct vs; [done|]. simpl. by rewrite Nat.sub_diag.
  - by apply last_None in Hlast.
Qed.

(** C5, as the code has it.  Take a loop that starts from the record
    +infinity, [k] epochs of it that return, with the validation losses
    [vs], and one more epoch that returns, with the loss [v].  That
    epoch starts a write at the best path when [v] is strictly below the
    record, the running best of [vs], and starts no write otherwise.
    When no loss in [vs] is NaN, that is: when [v] is strictly below
    +infinity and below every loss in [vs].  And when the losses
    increase from each epoch to the next, no epoch after the first
    starts a write. *)
Theorem best_overwritten_iff {G Model : Type} `{!Torch G Model, !Format}
    (base : string) (tl vl : DataLoader) (k : nat)
    (st0 st st' : train.loop_state) (w0 w w' : world)
    (vs : list float) (mk : Model) (gk : G) :
  train.best_val_loss st0 = inf →
  train.epoch_loop base tl vl (seq 0 k) st0 w0 = (Ok st, w) →
  train.val_losses tl vl k (train.model st0) (train.gen st0) = Ok (vs, mk, gk) →
  train.epoch_body base tl vl k st w = (Ok st', w') →
  let best := train.best_model_path base in
  let started := saves (w_events w') = saves (w_events w) ++ [best] in
  ∃ m tr v g,
    train.phases tl vl st = Ok (m, tr, v, g) ∧
    train.best_val_loss st = train.running_best inf vs ∧
    (started ↔ PrimFloat.ltb v (train.running_best inf vs) = true) ∧
    (¬ started → saves (w_events w') = saves (w_events w)) ∧
    (Forall (fun u => is_nan u = false) vs →
       started ↔
       PrimFloat.ltb v inf = true ∧ Forall (fun u => PrimFloat.ltb v u = true) vs) ∧
    (train.increasing (vs ++ [v]) → vs ≠ [] → ¬ started).
Proof.
  intros Hinf Hloop Hvs Hbody best started.
  apply epoch_loop_ok in Hloop as (vs' & Hvs' & Hbest).
  rewrite length_seq, Hvs in Hvs'. injection Hvs' as <- _ _.
  rewrite Hinf in Hbest.
  apply epoch_body_ok in Hbody as (m & tr & v & g & Hph & _ & Hsaves).
  rewrite Hbest in Hsaves.
  assert (started ↔ PrimFloat.ltb v (train.running_best inf vs) = true) as Hiff.
  { unfold started. rewrite Hsaves.
    destruct (PrimFloat.ltb v (train.running_best inf vs)); [done|].
    split; [|done]. rewrite app_nil_r. intros Heq.
    apply (f_equal length) in Heq. rewrite length_app in Heq. simpl in Heq. lia. }
  exists m, tr, v, g. split; [done|]. split; [done|]. split; [done|].
  split; [|split].
  - rewrite Hiff, Hsaves.
    destruct (PrimFloat.ltb v (train.running_best inf vs)); [done|].
    by rewrite app_nil_r.
  - intros Hnan. by rewrite Hiff, running_best_lt.
  - intros Hinc Hne. rewrite Hiff.
    rewrite running_best_lt by (by eapply increasing_not_nan).
    intros [_ Hall].
    destruct (increasing_last vs v Hinc Hne) as (u & Hu & Huv).
    rewrite Forall_forall in Hall. specialize (Hall u Hu).
    apply ltb_asym in Huv. congruence.
Qed.

Lemma pair_with_snd {A B} (p : A * B) (a : A) : p.1 = a → p = (a, p.2).
Proof. destruct p. simpl. by intros ->. Qed.

(** Validation losses 2 and then 1: the second epoch starts a write. *)
Lemma best_overwritten_iff_witness :
  let T := scripted true [0%float; 2%float; 1%float] no_fault in
  let st0 := train.LoopState [0%float; 2%float; 1%float] inf [] in
  let st1 := train.LoopState [2%float; 1%float] 2%float [] in
  let w1 := (train.epoch_loop (Torch0 := T) (H := format_stub)
               "/app" one_batch_train one_batch_val (seq 0 1) st0
               (boot Disk.empty)).2 in
  let w2 := (train.epoch_body (Torch0 := T) (H := format_stub)
               "/app" one_batch_train one_batch_val 1 st1 w1).2 in
  saves (w_events w2) = saves (w_events w1) ++ [train.best_model_path "/app"].
Proof.
  intros T st0 st1 w1 w2.
  assert (train.epoch_loop (Torch0 := T) (H := format_stub)
            "/app" one_batch_train one_batch_val (seq 0 1) st0 (boot Disk.empty)
          = (Ok st1, w1)) as Hloop
    by (apply pair_with_snd; vm_compute; reflexivity).
  assert (train.epoch_body (Torch0 := T) (H := format_stub)
            "/app" one_batch_train one_batch_val 1 st1 w1
          = (Ok (train.LoopState [1%float] 1%float []), w2)) as Hbody
    by (apply pair_with_snd; vm_compute; reflexivity).
  destruct (best_overwritten_iff (Torch0 := T) (H := format_stub)
              "/app" one_batch_train one_batch_val 1
              st0 st1 _ _ w1 w2 [2%float] [2%float; 1%float] []
              eq_refl Hloop eq_refl Hbody)
    as (m & tr & v & g & Hph & _ & Hiff & _).
  vm_compute in Hph. injection Hph as <- <- <- <-.
  apply Hiff. vm_compute. reflexivity.
Defined.

(** C5 as stated fails after a NaN: the first epoch has the validation
    loss NaN and starts no write; the second has the loss 1 and starts
    one, though 1 is not below NaN. *)
Lemma nan_then_write :
  let T := scripted true [0%float; PrimFloat.nan; 1%float] no_fault in
  let st0 := train.LoopState [0%float; PrimFloat.nan; 1%float] inf [] in
  let st1 := train.LoopState [PrimFloat.nan; 1%float] inf [] in
  let r1 := train.epoch_loop (Torch0 := T) (H := format_stub)
              "/app" one_batch_train one_batch_val (seq 0 1) st0
              (boot Disk.empty) in
  let r2 := train.epoch_body (Torch0 := T) (H := format_stub)
              "/app" one_batch_train one_batch_val 1 st1 r1.2 in
  r1.1 = Ok st1 ∧
  train.val_losses (Torch0 := T) one_batch_train one_batch_val 1
    (train.model st0) (train.gen st0)
    = Ok ([PrimFloat.nan], train.model st1, train.gen st1) ∧
  saves (w_events r1.2) = [] ∧
  train.phases (Torch0 := T) one_batch_train one_batch_val st1
    = Ok ([1%float], 0%float, 1%float, []) ∧
  is_ok r2.1 = true ∧
  saves (w_events r2.2) = [train.best_model_path "/app"] ∧
  PrimFloat.ltb 1%float PrimFloat.nan = false.
Proof.
  intros T st0 st1 r1 r2.
  split; [vm_compute; reflexivity|].
  split; [vm_compute; reflexivity|].
  split; [vm_compute; reflexivity|].
  split; [vm_compute; reflexivity|].
  split; [vm_compute; reflexivity|].
  split; vm_compute; reflexivity.
Qed.

(** ** Datasets of fewer than ten samples *)

Lemma ten_le_max_len : (10 ≤ max_len)%nat.
Proof. apply Nat.leb_le. vm_compute. reflexivity. Qed.

Section Short.
Context {G Model : Type} `{!Generator G, !Torch G Model, !Format, !Libm}.

(** Fewer than ten samples: the validation list is empty. *)
Lemma split_short (n : nat) (g : G) :
  (n < 10)%nat →
  train.split n g = Ok ((randperm n g).1, [], (randperm n g).2) ∧
  length (randperm n g).1 = n.
Proof.
  intros Hn. pose proof ten_le_max_len.
  rewrite split_eq by lia. rewrite (Nat.div_small n 10 Hn), Nat.sub_0_r.
  pose proof (randperm_length n g) as Hlen.
  rewrite take_ge, drop_ge by lia. done.
Qed.

Lemma split_sizes_short (n : nat) :
  (n < 10)%nat → train.split_sizes n = Ok (Z.of_nat n, 0%Z).
Proof.
  intros Hn. pose proof ten_le_max_len. unfold train.split_sizes.
  rewrite val_size_tenth by lia. rewrite (Nat.div_small n 10 Hn).
  cbn [mbind result_bind Py.bind]. by rewrite Z.sub_0_r.
Qed.

Lemma split_at_short (n : nat) (g : G) :
  (n < 10)%nat →
  train.split_at n (Z.of_nat n) 0 g = Ok ((randperm n g).1, [], (randperm n g).2).
Proof.
  intros Hn. destruct (split_short n g Hn) as [Hsplit _].
  unfold train.split in Hsplit. by rewrite split_sizes_short in Hsplit.
Qed.

Lemma validate_empty (m : Model) (g : G) shuffle :
  train.validate_phase (MkDataLoader [] config.BATCH_SIZE shuffle) m g =
    Raise division_by_zero.
Proof.
  unfold train.validate_phase.
  destruct (train.loader_batches _ g) as [batches g']. done.
Qed.

Lemma train_phase_nonempty (subset : list nat) (m : Model) (g : G) :
  subset ≠ [] →
  is_ok (train.train_phase (MkDataLoader subset config.BATCH_SIZE true) m g) = true.
Proof.
  intros Hne. unfold train.train_phase.
  destruct (train.loader_batches _ g) as [batches g'].
  destruct (foldl _ _ _) as [m' running_loss].
  unfold loader_len. cbn [torch.subset torch.batch_size].
  destruct ((length subset + config.BATCH_SIZE - 1) / config.BATCH_SIZE)%nat
    as [|k] eqn:Hk; [|done].
  apply Nat.div_small_iff in Hk; [|done].
  destruct subset; [done|]. unfold config.BATCH_SIZE in Hk. simpl in Hk. lia.
Qed.

Lemma train_phase_empty (m : Model) (g : G) :
  train.train_phase (MkDataLoader [] config.BATCH_SIZE true) m g =
    Raise division_by_zero.
Proof.
  unfold train.train_phase.
  destruct (train.loader_batches _ g) as [batches g'].
  by destruct (foldl _ _ _) as [m' running_loss].
Qed.

(** When the phases of the first epoch raise, so does [fit], before any
    write. *)
Lemma fit_raises base tl vl (g : G) w e :
  (∀ st, train.phases tl vl st = Raise e) →
  ∃ w', train.fit base tl vl g w = (Raise e, w') ∧
        saves (w_events w') = saves (w_events w).
Proof.
  intros Hph. unfold train.fit. destruct (unet_init g) as [m g'].
  unfold mbind, io_bind, Io.bind, print. cbn [train.epoch_loop seq config.NUM_EPOCHS].
  unfold mbind, io_bind, Io.bind, train.epoch_body.
  unfold mbind, io_bind, Io.bind, lift. rewrite Hph.
  eexists. split; [done|]. by rewrite saves_log_print.
Qed.

End Short.

Section ShortRun.
Context {G Model : Type} `{!Generator G, !Torch G Model, !Format, !Libm}.

(** [load_data] on a dataset of fewer than ten samples. *)
Lemma load_data_short base (h h' : heap) (g : G) w ds n :
  dataset.init (w_disk w) h (config.DATA_DIR base) config.SUITE config.DATASET_TYPE
    = Ok (ds, h') →
  dataset.len ds = Ok n →
  (n < 10)%nat →
  let train_dataset := (randperm n g).1 in
  match train.new_loader train_dataset true with
  | Raise e =>
      ∃ w', train.load_data base h g w = (Raise e, w') ∧
            saves (w_events w') = saves (w_events w)
  | Ok tl =>
      ∃ w', train.load_data base h g w =
              (Ok (tl, MkDataLoader [] config.BATCH_SIZE false, (randperm n g).2), w') ∧
            saves (w_events w') = saves (w_events w)
  end.
Proof.
  intros Hinit Hlen Hn train_dataset.
  unfold train.load_data, mbind, io_bind, Io.bind, print, read_disk, lift.
  rewrite w_disk_log, Hinit, Hlen, (split_sizes_short n Hn),
    (split_at_short n g Hn).
  fold train_dataset.
  destruct (train.new_loader train_dataset true) as [tl|e].
  - cbn [train.new_loader andb]. eexists. split; [reflexivity|].
    by rewrite !saves_log_print.
  - eexists. split; [reflexivity|]. by rewrite !saves_log_print.
Qed.

End ShortRun.




(** ** The flat-array dataset, from construction to samples *)

Lemma exists_file d p f : files d !! p = Some f → exists_ d p = true.
Proof.
  intros Hf. unfold exists_. rewrite Hf.
  rewrite bool_decide_eq_true_2 by eauto. done.
Qed.

Lemma exists_not_file d p :
  exists_ d p = true → files d !! p = None → p ∈ dirs d.
Proof.
  unfold exists_. intros Hex Hnone. rewrite Hnone in Hex.
  rewrite bool_decide_eq_false_2 in Hex by (intros [? ?]; discriminate).
  simpl in Hex. by apply bool_decide_eq_true in Hex.
Qed.

Lemma np_load_ok d p a : np_load d p = Ok a ↔ files d !! p = Some (NpyFile a).
Proof.
  unfold np_load. destruct (files d !! p) as [[]|]; split; congruence.
Qed.

Lemma shape0_ok s n : shape0 s = Ok n ↔ s = n :: drop 1 s.
Proof.
  destruct s as [|k s]; simpl; [split; congruence|].
  rewrite drop_0. split; congruence.
Qed.

(** Opening an existing path never ends in [FileNotFoundError]. *)
Lemma np_load_existing d p msg :
  exists_ d p = true → np_load d p ≠ Raise (Exn FileNotFoundError msg).
Proof.
  intros Hex. unfold np_load.
  destruct (files d !! p) as [[]|] eqn:Hf; try discriminate.
  unfold cannot_open. rewrite bool_decide_eq_true_2 by by apply exists_not_file.
  discriminate.
Qed.

(** What a constructor call that returns has read. *)
Lemma npy_init_inv d (h : heap) root suite ty self h' :
  dataset.init d h root suite ty = Ok (self, h') →
  ∃ a b n,
    files d !! path_join root (dataset.input_filename suite ty) = Some (NpyFile a) ∧
    files d !! path_join root (dataset.target_filename suite ty) = Some (NpyFile b) ∧
    shape a = n :: drop 1 (shape a) ∧
    shape b = n :: drop 1 (shape b) ∧
    self = dataset.MkCAMELSDataset root (NdArray (length h) 0 (shape a))
                                   (NdArray (S (length h)) 0 (shape b)) ∧
    h' = h ++ [map astype_float32 (data a); map astype_float32 (data b)].
Proof.
  unfold dataset.init, of_array, alloc. cbn [dims].
  set (pi := path_join root (dataset.input_filename suite ty)).
  set (pt := path_join root (dataset.target_filename suite ty)).
  destruct (negb (exists_ d pi) || negb (exists_ d pt)); [discriminate|].
  destruct (np_load d pi) as [a|] eqn:Ha; [|discriminate].
  destruct (np_load d pt) as [b|] eqn:Hb; [|discriminate].
  cbn [mbind result_bind Py.bind].
  destruct (shape0 (shape a)) as [n|] eqn:Hn; [|discriminate].
  destruct (shape0 (shape b)) as [m|] eqn:Hm; [|discriminate].
  cbn [mbind result_bind Py.bind].
  destruct (n =? m)%nat eqn:Hnm; [|discriminate].
  apply Nat.eqb_eq in Hnm as <-. intros [= <- <-].
  exists a, b, n. rewrite length_app, Nat.add_1_r, <- app_assoc.
  apply np_load_ok in Ha, Hb. apply shape0_ok in Hn, Hm. done.
Qed.

Lemma npy_init_intro d (h : heap) root suite ty a b n :
  files d !! path_join root (dataset.input_filename suite ty) = Some (NpyFile a) →
  files d !! path_join root (dataset.target_filename suite ty) = Some (NpyFile b) →
  shape a = n :: drop 1 (shape a) →
  shape b = n :: drop 1 (shape b) →
  dataset.init d h root suite ty =
    Ok (dataset.MkCAMELSDataset root (NdArray (length h) 0 (shape a))
                                (NdArray (S (length h)) 0 (shape b)),
        h ++ [map astype_float32 (data a); map astype_float32 (data b)]).
Proof.
  intros Ha Hb Hn Hm. unfold dataset.init, of_array, alloc. cbn [dims].
  rewrite (exists_file _ _ _ Ha), (exists_file _ _ _ Hb).
  apply np_load_ok in Ha, Hb. apply shape0_ok in Hn, Hm.
  rewrite Ha, Hb. cbn [negb orb mbind result_bind Py.bind].
  rewrite Hn, Hm. cbn [mbind result_bind Py.bind].
  rewrite Nat.eqb_refl, length_app, Nat.add_1_r, <- app_assoc. done.
Qed.

(** X1: [CAMELSDataset(root, suite, ty)] returns exactly when the two
    paths hold flat arrays of at least one dimension each whose leading
    dimensions are equal.  The dataset then shows two new buffers, the
    binary32 casts of the two arrays, which are all the constructor adds
    to the heap. *)
Theorem npy_init_ok_iff d (h : heap) root suite ty self h' :
  dataset.init d h root suite ty = Ok (self, h') ↔
  ∃ a b n,
    files d !! path_join root (dataset.input_filename suite ty) = Some (NpyFile a) ∧
    files d !! path_join root (dataset.target_filename suite ty) = Some (NpyFile b) ∧
    shape a = n :: drop 1 (shape a) ∧
    shape b = n :: drop 1 (shape b) ∧
    self = dataset.MkCAMELSDataset root (NdArray (length h) 0 (shape a))
                                   (NdArray (S (length h)) 0 (shape b)) ∧
    h' = h ++ [map astype_float32 (data a); map astype_float32 (data b)].
Proof.
  split; [apply npy_init_inv|].
  intros (a & b & n & Ha & Hb & Hn & Hm & -> & ->). by eapply npy_init_intro.
Qed.

(** X2: the constructor raises [FileNotFoundError] exactly when one of
    the two paths does not exist; what exists and cannot be read (a
    directory, a file that is no array) ends in another exception. *)
Theorem npy_init_not_found_iff d (h : heap) root suite ty :
  (∃ msg, dataset.init d h root suite ty = Raise (Exn FileNotFoundError msg)) ↔
  exists_ d (path_join root (dataset.input_filename suite ty)) = false ∨
  exists_ d (path_join root (dataset.target_filename suite ty)) = false.
Proof.
  unfold dataset.init, of_array, alloc. cbn [dims].
  set (pi := path_join root (dataset.input_filename suite ty)).
  set (pt := path_join root (dataset.target_filename suite ty)).
  destruct (exists_ d pi) eqn:Hpi, (exists_ d pt) eqn:Hpt;
    cbn [negb orb]; try (split; eauto; fail).
  split; [|intros [?|?]; discriminate]. intros [msg Hraise]. exfalso.
  pose proof (np_load_existing d pi msg Hpi) as Hi.
  pose proof (np_load_existing d pt msg Hpt) as Ht.
  destruct (np_load d pi) as [a|ea]; [|by injection Hraise as ->].
  destruct (np_load d pt) as [b|eb]; [|by injection Hraise as ->].
  cbn [mbind result_bind Py.bind] in Hraise.
  destruct (shape0 (shape a)) as [n|] eqn:Hn;
    [|destruct (shape a); cbn in Hn, Hraise; congruence].
  destruct (shape0 (shape b)) as [m|] eqn:Hm;
    [|destruct (shape b); cbn in Hn, Hm, Hraise; congruence].
  cbn [mbind result_bind Py.bind] in Hraise.
  by destruct (negb (n =? m)%nat).
Qed.

Lemma Ok_inj {A} (a b : A) : Ok a = Ok b → a = b.
Proof. congruence. Qed.

Lemma np_getitem_cases (a : ndarray) n rest idx :
  dims a = n :: rest →
  match Np.getitem a idx with
  | Ok w => (idx < n)%nat ∧ dims w = rest ∧ buf w = buf a
  | Raise e => (n ≤ idx)%nat ∧ exn_class e = IndexError
  end.
Proof.
  intros Hd. unfold Np.getitem. rewrite Hd.
  destruct (idx <? n)%nat eqn:Hlt; cbn [dims buf exn_class].
  - apply Nat.ltb_lt in Hlt. done.
  - apply Nat.ltb_ge in Hlt. done.
Qed.

Lemma sample_transform_dims `{!Libm} (h : heap) x y :
  dims (sample_transform h x y).1.1 = 1%nat :: dims x ∧
  dims (sample_transform h x y).1.2 = 1%nat :: dims y.
Proof. done. Qed.



(** ** The HDF5 dataset, from construction to samples *)

Lemma h5_open_ok d p f : h5_open d p = Ok f ↔ files d !! p = Some (Hdf5File f).
Proof.
  unfold h5_open. destruct (files d !! p) as [[]|]; split; congruence.
Qed.

Lemma h5_dataset_ok (f : gmap string array) name a :
  h5_dataset f name = Ok a ↔ f !! name = Some a.
Proof. unfold h5_dataset. destruct (f !! name); split; congruence. Qed.

Lemma h5_read_ok d p name a :
  h5_read d p name = Ok a ↔
  ∃ f, files d !! p = Some (Hdf5File f) ∧ f !! name = Some a.
Proof.
  unfold h5_read. split.
  - destruct (h5_open d p) as [f|] eqn:Hf; [|discriminate].
    cbn [mbind result_bind Py.bind]. intros Ha. exists f.
    by apply h5_open_ok in Hf; apply h5_dataset_ok in Ha.
  - intros (f & Hf%h5_open_ok & Ha%h5_dataset_ok). by rewrite Hf.
Qed.

(** What a constructor call that returns has read, in either mode. *)
Lemma hdf5_init_inv d (h : heap) root suite ty z cache self h' :
  dataset_hdf5.init d h root suite ty z cache = Ok (self, h') →
  let pi := path_join root (dataset_hdf5.input_filename suite ty z) in
  let pt := path_join root (dataset_hdf5.target_filename suite ty z) in
  ∃ a n,
    h5_read d pi "Maps_Mcdm" = Ok a ∧
    shape a = n :: drop 1 (shape a) ∧
    exists_ d pt = true ∧
    if cache then
      ∃ b, h5_read d pt "Maps_Mtot" = Ok b ∧
        self = dataset_hdf5.MkCAMELSDatasetHDF5 root suite ty z true pi pt n
                 (drop 1 (shape a))
                 (Some (NdArray (length h) 0 (shape a)))
                 (Some (NdArray (S (length h)) 0 (shape b))) ∧
        h' = h ++ [map astype_float32 (data a); map astype_float32 (data b)]
    else
      self = dataset_hdf5.MkCAMELSDatasetHDF5 root suite ty z false pi pt n
               (drop 1 (shape a)) None None ∧
      h' = h.
Proof.
  intros Hinit pi pt. revert Hinit. unfold dataset_hdf5.init. fold pi pt.
  destruct (exists_ d pi); [|discriminate].
  destruct (exists_ d pt); [|discriminate]. cbn [negb].
  fold (h5_read d pi "Maps_Mcdm").
  destruct (h5_open d pi) as [fi|] eqn:Hfi; [|discriminate].
  cbn [mbind result_bind Py.bind].
  destruct (h5_dataset fi "Maps_Mcdm") as [a|] eqn:Ha; [|discriminate].
  cbn [mbind result_bind Py.bind].
  destruct (shape0 (shape a)) as [n|] eqn:Hn; [|discriminate].
  cbn [mbind result_bind Py.bind]. intros Hrest.
  exists a, n. apply shape0_ok in Hn.
  assert (h5_read d pi "Maps_Mcdm" = Ok a) as Hread
    by (unfold h5_read; by rewrite Hfi).
  split; [done|]. split; [done|]. split; [done|].
  destruct cache.
  - unfold of_array, alloc in Hrest.
    destruct (h5_open d pt) as [ft|] eqn:Hft; [|discriminate].
    cbn [mbind result_bind Py.bind] in Hrest.
    destruct (h5_dataset ft "Maps_Mtot") as [b|] eqn:Hb; [|discriminate].
    cbn [mbind result_bind Py.bind] in Hrest. injection Hrest as <- <-.
    exists b. unfold h5_read. rewrite Hft. cbn [mbind result_bind Py.bind].
    by rewrite length_app, Nat.add_1_r, <- app_assoc.
  - by injection Hrest as <- <-.
Qed.

Lemma h5_read_exists d p name a : h5_read d p name = Ok a → exists_ d p = true.
Proof. intros (f & Hf & _)%h5_read_ok. by eapply exists_file. Qed.

Lemma hdf5_init_intro d (h : heap) root suite ty z (cache : bool) self h' :
  let pi := path_join root (dataset_hdf5.input_filename suite ty z) in
  let pt := path_join root (dataset_hdf5.target_filename suite ty z) in
  (∃ a n,
    h5_read d pi "Maps_Mcdm" = Ok a ∧
    shape a = n :: drop 1 (shape a) ∧
    exists_ d pt = true ∧
    if cache then
      ∃ b, h5_read d pt "Maps_Mtot" = Ok b ∧
        self = dataset_hdf5.MkCAMELSDatasetHDF5 root suite ty z true pi pt n
                 (drop 1 (shape a))
                 (Some (NdArray (length h) 0 (shape a)))
                 (Some (NdArray (S (length h)) 0 (shape b))) ∧
        h' = h ++ [map astype_float32 (data a); map astype_float32 (data b)]
    else
      self = dataset_hdf5.MkCAMELSDatasetHDF5 root suite ty z false pi pt n
               (drop 1 (shape a)) None None ∧
      h' = h) →
  dataset_hdf5.init d h root suite ty z cache = Ok (self, h').
Proof.
  intros pi pt (a & n & Ha & Hn & Hpt & Hrest).
  unfold dataset_hdf5.init. fold pi pt.
  rewrite (h5_read_exists _ _ _ _ Ha), Hpt. cbn [negb].
  apply shape0_ok in Hn. unfold h5_read in Ha.
  destruct (h5_open d pi) as [fi|]; [|discriminate].
  cbn [mbind result_bind Py.bind] in *. rewrite Ha.
  cbn [mbind result_bind Py.bind]. rewrite Hn.
  cbn [mbind result_bind Py.bind].
  destruct cache.
  - destruct Hrest as (b & Hb & -> & ->). unfold h5_read in Hb.
    unfold of_array, alloc.
    destruct (h5_open d pt) as [ft|]; [|discriminate].
    cbn [mbind result_bind Py.bind] in *. rewrite Hb.
    cbn [mbind result_bind Py.bind].
    by rewrite length_app, Nat.add_1_r, <- app_assoc.
  - by destruct Hrest as [-> ->].
Qed.


Lemma h5_getitem_cases (a : array) n idx :
  shape a = n :: drop 1 (shape a) →
  match h5_getitem a idx with
  | Ok e => (idx < n)%nat ∧ shape e = drop 1 (shape a)
  | Raise e => (n ≤ idx)%nat ∧ exn_class e = IndexError
  end.
Proof.
  intros Hs. unfold h5_getitem. rewrite Hs. cbn [drop].
  destruct (idx <? n)%nat eqn:Hlt; cbn [shape exn_class].
  - apply Nat.ltb_lt in Hlt. done.
  - apply Nat.ltb_ge in Hlt. done.
Qed.

(** X5: on a dataset that the HDF5 constructor returned, in either mode
    and read on the same disk, a sample that [dataset[idx]] returns has
    an index below [len(dataset)] and an input tensor of the shape
    [(1, *map_shape)]. *)
Theorem hdf5_getitem_shape `{!Libm} d (h : heap) root suite ty z cache self h'
    (h0 : heap) (idx : nat) tx ty' h'' :
  dataset_hdf5.init d h root suite ty z cache = Ok (self, h') →
  dataset_hdf5.getitem d h0 self idx = Ok (tx, ty', h'') →
  (idx < dataset_hdf5.len self)%nat ∧
  dims tx = 1%nat :: dataset_hdf5.map_shape self.
Proof.
  intros Hinit. apply hdf5_init_inv in Hinit as (a & n & Ha & Hn & _ & Hrest).
  unfold dataset_hdf5.getitem, dataset_hdf5.len. destruct cache.
  - destruct Hrest as (b & _ & -> & _).
    cbn [dataset_hdf5.cache_in_memory dataset_hdf5.input_cache
         dataset_hdf5.target_cache dataset_hdf5.n_simulations
         dataset_hdf5.map_shape from_option mbind result_bind Py.bind].
    pose proof (np_getitem_cases (NdArray (length h) 0 (shape a)) n _ idx Hn) as Hx.
    destruct (Np.getitem (NdArray (length h) 0 (shape a)) idx) as [x|];
      [|discriminate].
    cbn [mbind result_bind Py.bind].
    destruct (Np.getitem _ idx) as [y|]; [|discriminate].
    cbn [mbind result_bind Py.bind].
    destruct (sample_transform_dims h0 x y) as [Hsx _].
    intros Hst. apply Ok_inj in Hst. rewrite Hst in Hsx. cbn [fst] in Hsx.
    destruct Hx as (? & Hdx & _). by rewrite Hsx, Hdx.
  - destruct Hrest as [-> _].
    cbn [dataset_hdf5.cache_in_memory dataset_hdf5.input_path
         dataset_hdf5.target_path dataset_hdf5.n_simulations
         dataset_hdf5.map_shape].
    unfold h5_read in Ha.
    destruct (h5_open d _) as [fi|]; [|discriminate].
    cbn [mbind result_bind Py.bind] in *. rewrite Ha.
    cbn [mbind result_bind Py.bind].
    pose proof (h5_getitem_cases a n idx Hn) as Hx.
    destruct (h5_getitem a idx) as [ex|]; [|discriminate].
    cbn [mbind result_bind Py.bind]. unfold of_array, alloc.
    destruct (h5_open d _) as [ft|]; [|discriminate].
    cbn [mbind result_bind Py.bind].
    destruct (h5_dataset ft "Maps_Mtot") as [b|]; [|discriminate].
    cbn [mbind result_bind Py.bind].
    destruct (h5_getitem b idx) as [ey|]; [|discriminate].
    cbn [mbind result_bind Py.bind].
    match goal with
    | |- Ok (sample_transform ?hh ?x ?y) = _ → _ =>
        destruct (sample_transform_dims hh x y) as [Hsx _];
        intros Hst; apply Ok_inj in Hst; rewrite Hst in Hsx
    end.
    cbn [fst dims] in Hsx. destruct Hx as [? Hdx]. by rewrite Hsx, Hdx.
Qed.

(** The second sample of a lazily read archive of two. *)
Lemma hdf5_getitem_shape_witness :
  ∃ self tx ty' h'',
    dataset_hdf5.init archive_pair [] "data" "IllustrisTNG" "CV" "0.00" false
      = Ok (self, []) ∧
    dataset_hdf5.getitem (H := libm_id) archive_pair [] self 1 = Ok (tx, ty', h'') ∧
    (1 < dataset_hdf5.len self)%nat ∧
    dims tx = 1%nat :: dataset_hdf5.map_shape self.
Proof.
  eexists _, _, _, _.
  split; [vm_compute; reflexivity|].
  split; [vm_compute; reflexivity|].
  eapply (hdf5_getitem_shape (H := libm_id) archive_pair [] "data"
            "IllustrisTNG" "CV" "0.00" false _ [] [] 1);
    vm_compute; reflexivity.
Defined.

Lemma h5_open_existing d p msg :
  exists_ d p = true → h5_open d p ≠ Raise (Exn FileNotFoundError msg).
Proof.
  intros Hex. unfold h5_open.
  destruct (files d !! p) as [[]|] eqn:Hf; try discriminate.
  unfold cannot_open. rewrite bool_decide_eq_true_2 by by apply exists_not_file.
  discriminate.
Qed.

(** X6: the HDF5 constructor raises [FileNotFoundError] exactly when
    one of the two paths does not exist, in either mode; an archive
    that exists and cannot be opened, or lacks its dataset, ends in
    another exception. *)
Theorem hdf5_init_not_found_iff d (h : heap) root suite ty z cache :
  (∃ msg, dataset_hdf5.init d h root suite ty z cache =
            Raise (Exn FileNotFoundError msg)) ↔
  exists_ d (path_join root (dataset_hdf5.input_filename suite ty z)) = false ∨
  exists_ d (path_join root (dataset_hdf5.target_filename suite ty z)) = false.
Proof.
  unfold dataset_hdf5.init, of_array, alloc.
  set (pi := path_join root (dataset_hdf5.input_filename suite ty z)).
  set (pt := path_join root (dataset_hdf5.target_filename suite ty z)).
  destruct (exists_ d pi) eqn:Hpi; cbn [negb]; [|split; eauto].
  destruct (exists_ d pt) eqn:Hpt; cbn [negb]; [|split; eauto].
  split; [|intros [?|?]; discriminate]. intros [msg Hraise]. exfalso.
  pose proof (h5_open_existing d pi msg Hpi) as Hi.
  pose proof (h5_open_existing d pt msg Hpt) as Ht.
  destruct (h5_open d pi) as [fi|ei]; [|by injection Hraise as ->].
  cbn [mbind result_bind Py.bind] in Hraise.
  unfold h5_dataset in Hraise.
  destruct (fi !! "Maps_Mcdm") as [a|]; [|discriminate].
  cbn [mbind result_bind Py.bind] in Hraise.
  destruct (shape a) as [|n rest]; [discriminate|].
  cbn [shape0 mbind result_bind Py.bind] in Hraise.
  destruct cache; [|discriminate].
  destruct (h5_open d pt) as [ft|et]; [|by injection Hraise as ->].
  cbn [mbind result_bind Py.bind] in Hraise.
  destruct (ft !! "Maps_Mtot") as [b|]; discriminate.
Qed.

(** ** The two formats side by side *)

(** X7: when the archive pair holds the same two arrays as the flat
    pair, the caching HDF5 dataset is built whenever the flat one is,
    over the same buffers, with the same length, and [dataset[idx]]
    ends alike on both for every index: the same tensors, or the same
    exception. *)
Theorem npy_hdf5_same_samples `{!Libm} d (h : heap) root suite ty z s1 h1 :
  dataset.init d h root suite ty = Ok (s1, h1) →
  h5_read d (path_join root (dataset_hdf5.input_filename suite ty z)) "Maps_Mcdm" =
    np_load d (path_join root (dataset.input_filename suite ty)) →
  h5_read d (path_join root (dataset_hdf5.target_filename suite ty z)) "Maps_Mtot" =
    np_load d (path_join root (dataset.target_filename suite ty)) →
  ∃ s2,
    dataset_hdf5.init d h root suite ty z true = Ok (s2, h1) ∧
    dataset.len s1 = Ok (dataset_hdf5.len s2) ∧
    ∀ (h0 : heap) (idx : nat),
      dataset_hdf5.getitem d h0 s2 idx = dataset.getitem h0 s1 idx.
Proof.
  intros (a & b & n & Ha & Hb & Hn & Hm & -> & ->)%npy_init_inv Hin Htg.
  apply np_load_ok in Ha, Hb. rewrite Ha in Hin. rewrite Hb in Htg.
  eexists. split; [|split].
  - apply hdf5_init_intro. exists a, n.
    split; [done|]. split; [done|].
    split; [by eapply h5_read_exists|]. by exists b.
  - unfold dataset.len. cbn. by apply shape0_ok.
  - done.
Qed.

(** Both pairs under [data], two samples each. *)
Lemma npy_hdf5_same_samples_witness :
  ∃ s1 s2 h1,
    dataset.init twin_pairs [] "data" "IllustrisTNG" "CV" = Ok (s1, h1) ∧
    dataset_hdf5.init twin_pairs [] "data" "IllustrisTNG" "CV" "0.00" true
      = Ok (s2, h1) ∧
    dataset.len s1 = Ok (dataset_hdf5.len s2) ∧
    ∀ (h0 : heap) (idx : nat),
      dataset_hdf5.getitem (H := libm_id) twin_pairs h0 s2 idx =
      dataset.getitem (H := libm_id) h0 s1 idx.
Proof.
  eexists _.
  assert (dataset.init twin_pairs [] "data" "IllustrisTNG" "CV" =
          Ok (dataset.MkCAMELSDataset "data" (NdArray 0 0 [2; 1; 2]%nat)
                (NdArray 1 0 [2; 1; 2]%nat),
              map (map astype_float32)
                [[1%float; 2%float; 3%float; 4%float];
                 [5%float; 6%float; 7%float; 8%float]])) as Hinit
    by (vm_compute; reflexivity).
  destruct (npy_hdf5_same_samples (H := libm_id) twin_pairs [] "data"
              "IllustrisTNG" "CV" "0.00" _ _ Hinit
              ltac:(vm_compute; reflexivity) ltac:(vm_compute; reflexivity))
    as (s2 & Hs2 & Hlen & Hsame).
  exists s2. eexists. exact (conj Hinit (conj Hs2 (conj Hlen Hsame))).
Defined.

(** ** What a training run leaves alone *)

Section Untouched.
Context {G Model : Type} `{!Generator G, !Torch G Model, !Format, !Libm}.
Context (base p : string).
Context (Hbest : p ≠ train.best_model_path base).

Lemma keeps_save_best v (m : Model) best :
  always (keeps p) (train.save_best base v m best).
Proof.
  unfold train.save_best. destruct (PrimFloat.ltb v best).
  - apply always_bind; [apply _|apply keeps_makedirs|intros _].
    apply always_bind; [apply _|by apply keeps_torch_save|intros _].
    apply always_bind; [apply _|apply keeps_print|intros _].
    apply always_ret, _.
  - apply always_ret, _.
Qed.

Lemma keeps_epoch_body tl vl epoch (st : train.loop_state) :
  always (keeps p) (train.epoch_body base tl vl epoch st).
Proof.
  unfold train.epoch_body.
  apply always_bind; [apply _|apply always_lift, _|intros [[[m tr] v] g]].
  apply always_bind; [apply _|apply keeps_print|intros _].
  apply always_bind; [apply _|apply keeps_save_best|intros best].
  apply always_ret, _.
Qed.

Lemma keeps_epoch_loop tl vl epochs (st : train.loop_state) :
  always (keeps p) (train.epoch_loop base tl vl epochs st).
Proof.
  revert st. induction epochs as [|epoch rest IH]; intros st; simpl.
  - apply always_ret, _.
  - apply always_bind; [apply _|apply keeps_epoch_body|done].
Qed.

Lemma keeps_fit tl vl (g : G) : always (keeps p) (train.fit base tl vl g).
Proof.
  unfold train.fit. destruct (unet_init g) as [m g'].
  apply always_bind; [apply _|apply keeps_print|intros _].
  apply keeps_epoch_loop.
Qed.

Lemma keeps_train_model device (h : heap) (g : G) :
  p ≠ train.model_path base →
  always (keeps p) (train.train_model base device h g).
Proof.
  intros Hfinal. unfold train.train_model.
  apply always_bind; [apply _|apply keeps_print|intros _].
  apply always_bind; [apply _|apply keeps_print|intros _].
  apply always_bind; [apply _|apply keeps_load_data|intros [[tl vl] g']].
  apply always_bind; [apply _|apply keeps_fit|intros st].
  apply always_bind; [apply _|apply keeps_print|intros _].
  apply always_bind; [apply _|apply keeps_print|intros _].
  apply always_bind; [apply _|by apply finalize_keeps|intros _].
  apply always_bind; [apply _|apply keeps_print|intros _].
  apply keeps_print.
Qed.

End Untouched.



(** ** The record of the epoch loop *)

Lemma ltb_irrefl x : PrimFloat.ltb x x = false.
Proof.
  destruct (PrimFloat.ltb x x) eqn:Hx; [|done].
  by rewrite (ltb_asym x x Hx) in Hx.
Qed.

Lemma ltb_lower x u b :
  PrimFloat.ltb x b = false → PrimFloat.ltb u b = true → PrimFloat.ltb x u = false.
Proof.
  intros Hxb Hub. destruct (PrimFloat.ltb x u) eqn:Hxu; [|done].
  by rewrite (ltb_trans x u b Hxu Hub) in Hxb.
Qed.

Lemma running_best_cons best v vs :
  train.running_best best (v :: vs) =
  train.running_best (if PrimFloat.ltb v best then v else best) vs.
Proof. done. Qed.

Lemma running_best_mem best vs :
  train.running_best best vs = best ∨ train.running_best best vs ∈ vs.
Proof.
  revert best. induction vs as [|v vs IH]; intros best; [by left|].
  rewrite running_best_cons.
  destruct (IH (if PrimFloat.ltb v best then v else best)) as [->|Hin].
  - destruct (PrimFloat.ltb v best); [right; left|by left].
  - right. by right.
Qed.

(** What is not below the record is not below any later record. *)
Lemma running_best_floor best vs x :
  PrimFloat.ltb x best = false →
  PrimFloat.ltb x (train.running_best best vs) = false.
Proof.
  revert best. induction vs as [|v vs IH]; intros best Hx; [done|].
  rewrite running_best_cons. apply IH.
  destruct (PrimFloat.ltb v best) eqn:Hv; [by eapply ltb_lower|done].
Qed.

Lemma running_best_min best vs :
  Forall (fun v => PrimFloat.ltb v (train.running_best best vs) = false) vs.
Proof.
  revert best. induction vs as [|v vs IH]; intros best; [done|].
  rewrite running_best_cons. constructor; [|apply IH].
  apply running_best_floor.
  destruct (PrimFloat.ltb v best) eqn:Hv; [apply ltb_irrefl|done].
Qed.

Section BestRecord.
Context {G Model : Type} `{!Torch G Model, !Format}.

Lemma val_losses_length tl vl k (m m' : Model) (g g' : G) vs :
  train.val_losses tl vl k m g = Ok (vs, m', g') → length vs = k.
Proof.
  revert m g vs. induction k as [|k IH]; intros m g vs; simpl.
  - by intros [= <- _ _].
  - destruct (train.phases _ _ _) as [[[[m1 tr] v] g1]|]; [|discriminate].
    cbn [mbind result_bind Py.bind].
    destruct (train.val_losses tl vl k m1 g1) as [[[rest m2] g2]|] eqn:Hrest;
      [|discriminate].
    cbn [mbind result_bind Py.bind]. intros [= <- <- <-].
    simpl. f_equal. by eapply IH.
Qed.

Lemma fit_ok base tl vl (g : G) (st' : train.loop_state) w w' :
  train.fit base tl vl g w = (Ok st', w') →
  ∃ vs,
    train.val_losses tl vl config.NUM_EPOCHS (unet_init g).1 (unet_init g).2 =
      Ok (vs, train.model st', train.gen st') ∧
    train.best_val_loss st' = train.running_best inf vs.
Proof.
  unfold train.fit. destruct (unet_init g) as [m g1].
  unfold mbind at 1. unfold io_bind, Io.bind, print.
  intros (vs & Hvs & Hbest)%epoch_loop_ok.
  rewrite length_seq in Hvs. by exists vs.
Qed.

End BestRecord.

(** X9: when the epoch loop returns, all fifteen epochs have run, and
    the record [best_val_loss] is +infinity or one of their validation
    losses; no validation loss is strictly below it, NaN losses
    included. *)
Theorem fit_record_is_minimum {G Model : Type} `{!Torch G Model, !Format}
    (base : string) (tl vl : DataLoader) (g : G) (st' : train.loop_state)
    (w w' : world) :
  train.fit base tl vl g w = (Ok st', w') →
  ∃ vs,
    train.val_losses tl vl config.NUM_EPOCHS (unet_init g).1 (unet_init g).2 =
      Ok (vs, train.model st', train.gen st') ∧
    length vs = 15%nat ∧
    (train.best_val_loss st' = inf ∨ train.best_val_loss st' ∈ vs) ∧
    Forall (fun v => PrimFloat.ltb v (train.best_val_loss st') = false) vs.
Proof.
  intros (vs & Hvs & ->)%fit_ok. exists vs.
  split; [done|]. split; [by apply val_losses_length in Hvs|].
  split; [apply running_best_mem|apply running_best_min].
Qed.

(** Validation losses 2, 1, and NaN from then on: the record is 1. *)
Lemma fit_record_is_minimum_witness :
  let T := scripted true [0%float; 2%float; 1%float] no_fault in
  let r := train.fit (Torch0 := T) (H := format_stub)
             "/app" one_batch_train one_batch_val [] (boot Disk.empty) in
  ∃ st', r.1 = Ok st' ∧ train.best_val_loss st' = 1%float ∧
  ∃ vs,
    train.val_losses (Torch0 := T) one_batch_train one_batch_val
      config.NUM_EPOCHS [0%float; 2%float; 1%float] [] =
      Ok (vs, train.model st', train.gen st') ∧
    length vs = 15%nat ∧
    (train.best_val_loss st' = inf ∨ train.best_val_loss st' ∈ vs) ∧
    Forall (fun v => PrimFloat.ltb v (train.best_val_loss st') = false) vs.
Proof.
  intros T r. exists (train.LoopState [] 1%float []).
  assert (r.1 = Ok (train.LoopState [] 1%float [])) as Hr
    by (vm_compute; reflexivity).
  split; [exact Hr|]. split; [reflexivity|].
  exact (fit_record_is_minimum (Torch0 := T)
           (H := format_stub) "/app" one_batch_train one_batch_val []
           _ (boot Disk.empty) r.2 (pair_with_snd r _ Hr)).
Defined.

(** ** The writes of a run, in order *)

#[local] Instance no_save_preorder : PreOrder no_save.
Proof.
  split; [done|]. unfold no_save. intros w1 w2 w3 H12 H23. congruence.
Qed.

Lemma saved_nil w w' : saved [] w w' ↔ no_save w w'.
Proof. unfold saved, no_save. by rewrite app_nil_r. Qed.

Lemma saved_app ps qs w1 w2 w3 :
  saved ps w1 w2 → saved qs w2 w3 → saved (ps ++ qs) w1 w3.
Proof. unfold saved. intros H12 H23. by rewrite H23, H12, app_assoc. Qed.

Lemma no_save_print line : always no_save (print line).
Proof. intros w. apply saves_log_print. Qed.

Lemma no_save_makedirs p : always no_save (os_makedirs p).
Proof.
  intros w. unfold os_makedirs, no_save.
  destruct (makedirs _ _); cbn [snd];
    [change (w_events (advance ?ds ?d ?w0)) with (w_events w0)|];
    apply saves_log_makedirs.
Qed.

Ltac saves_steps :=
  repeat first
    [ rewrite saves_log_print | rewrite saves_log_save
    | rewrite saves_log_makedirs | rewrite events_write_upto
    | progress change (w_events (advance ?ds ?d ?w0)) with (w_events w0) ].

Section Saves.
Context {G Model : Type} `{!Generator G, !Torch G Model, !Format, !Libm}.

(** A write is logged when it starts, whatever becomes of it. *)
Lemma saved_torch_save bytes p w : saved [p] w (torch_save bytes p w).2.
Proof.
  unfold torch_save, saved.
  destruct (save_fault _ _ _) as [[[k|] e]|]; cbn [snd];
    rewrite ?events_write_upto; apply saves_log_save.
Qed.

Lemma no_save_load_data base (h : heap) (g : G) :
  always no_save (train.load_data base h g).
Proof.
  unfold train.load_data.
  apply always_bind; [apply _|apply no_save_print|intros _].
  apply always_bind; [apply _|apply always_read_disk, _|intros d].
  apply always_bind; [apply _|apply always_lift, _|intros [ds h']].
  apply always_bind; [apply _|apply always_lift, _|intros n].
  apply always_bind; [apply _|apply always_lift, _|intros [ts vs]].
  apply always_bind; [apply _|apply always_lift, _|intros [[tr va] g']].
  apply always_bind; [apply _|apply always_lift, _|intros tl].
  apply always_bind; [apply _|apply always_lift, _|intros vl].
  apply always_bind; [apply _|apply no_save_print|intros _].
  apply always_ret, _.
Qed.

Lemma at_most_quiet p {A} (m : io A) :
  always no_save m → always (at_most p 0) m.
Proof. intros Hm w. exists 0%nat. split; [done|]. apply saved_nil, Hm. Qed.

Lemma at_most_bind p {A B} (m : io A) (f : A → io B) k1 k2 :
  always (at_most p k1) m → (∀ a, always (at_most p k2) (f a)) →
  always (at_most p (k1 + k2)) (m ≫= f).
Proof.
  intros Hm Hf w. unfold mbind, io_bind, Io.bind.
  destruct (Hm w) as (j1 & Hj1 & H1).
  destruct (m w) as [[a|e] w1]; cbn [snd] in H1.
  - destruct (Hf a w1) as (j2 & Hj2 & H2).
    exists (j1 + j2)%nat. split; [lia|].
    rewrite repeat_app. by eapply saved_app.
  - exists j1. split; [lia|done].
Qed.

Lemma at_most_torch_save bytes p : always (at_most p 1) (torch_save bytes p).
Proof. intros w. exists 1%nat. split; [done|]. apply saved_torch_save. Qed.

(** One epoch starts at most one write, at the best path. *)
Lemma at_most_epoch_body base tl vl epoch (st : train.loop_state) :
  always (at_most (train.best_model_path base) 1)
         (train.epoch_body base tl vl epoch st).
Proof.
  unfold train.epoch_body, train.save_best.
  apply (at_most_bind _ _ _ 0 1);
    [apply at_most_quiet, always_lift, _|intros [[[m tr] v] g]].
  apply (at_most_bind _ _ _ 0 1); [apply at_most_quiet, no_save_print|intros _].
  apply (at_most_bind _ _ _ 1 0); [|intros best; apply at_most_quiet, always_ret, _].
  destruct (PrimFloat.ltb v (train.best_val_loss st)).
  - apply (at_most_bind _ _ _ 0 1);
      [apply at_most_quiet, no_save_makedirs|intros _].
    apply (at_most_bind _ _ _ 1 0); [apply at_most_torch_save|intros _].
    apply (at_most_bind _ _ _ 0 0); [apply at_most_quiet, no_save_print|intros _].
    apply at_most_quiet, always_ret, _.
  - intros w. exists 0%nat. split; [lia|]. by apply saved_nil.
Qed.

Lemma at_most_epoch_loop base tl vl epochs (st : train.loop_state) :
  always (at_most (train.best_model_path base) (length epochs))
         (train.epoch_loop base tl vl epochs st).
Proof.
  revert st. induction epochs as [|epoch rest IH]; intros st; simpl.
  - apply at_most_quiet, always_ret, _.
  - apply (at_most_bind _ _ _ 1 (length rest)); [apply at_most_epoch_body|done].
Qed.

Lemma at_most_fit base tl vl (g : G) :
  always (at_most (train.best_model_path base) config.NUM_EPOCHS)
         (train.fit base tl vl g).
Proof.
  unfold train.fit. destruct (unet_init g) as [m g1].
  apply (at_most_bind _ _ _ 0 config.NUM_EPOCHS);
    [apply at_most_quiet, no_save_print|intros _].
  pose proof (at_most_epoch_loop base tl vl (seq 0 config.NUM_EPOCHS)
                (train.LoopState m inf g1)) as Hloop.
  by rewrite length_seq in Hloop.
Qed.

(** [finalize] returns, having started the final write or none. *)
Lemma saved_finalize base (m : Model) w :
  (train.finalize base m w).1 = Ok tt ∧
  ∃ final, (final = [] ∨ final = [train.model_path base]) ∧
    saved final w (train.finalize base m w).2.
Proof.
  unfold train.finalize, try_except.
  unfold mbind, io_bind, Io.bind, print, os_makedirs, torch_save.
  rewrite !w_disk_log.
  destruct (makedirs (w_disk w) (config.WEIGHTS_DIR base)) as [d1|e1].
  - cbn [w_disk advance log]. split.
    + by destruct (save_fault _ _ _) as [[[k|] e]|].
    + exists [train.model_path base]. split; [by right|]. unfold saved.
      destruct (save_fault _ _ _) as [[[k|] e]|]; cbn [snd]; by saves_steps.
  - split; [done|]. exists []. split; [by left|]. apply saved_nil.
    unfold no_save. cbn [snd]. by saves_steps.
Qed.

End Saves.

(** X10: the writes a run of [train_model] starts are, in this order, at
    most fifteen at the best path and then at most one at the final
    path, and nothing else.  A run that raises has not started the
    final write. *)
Theorem train_model_saves {G Model : Type}
    `{!Generator G, !Torch G Model, !Format, !Libm}
    (base device : string) (h : heap) (g : G) (w : world) :
  let r := train.train_model base device h g w in
  ∃ (k : nat) (final : list string),
    saves (w_events r.2) =
      saves (w_events w) ++ repeat (train.best_model_path base) k ++ final ∧
    (k ≤ 15)%nat ∧
    (final = [] ∨ final = [train.model_path base]) ∧
    (is_ok r.1 = false → final = []).
Proof.
  intros r. subst r. unfold train.train_model.
  unfold mbind, io_bind, Io.bind, print.
  set (w2 := log _ (log _ w)).
  assert (saves (w_events w2) = saves (w_events w)) as H2
    by (unfold w2; by saves_steps).
  pose proof (no_save_load_data base h g w2) as H3. unfold no_save in H3.
  destruct (train.load_data base h g w2) as [[[[tl vl] g1]|e] w3];
    cbn [fst snd] in H3 |- *;
    [|exists 0%nat, []; rewrite H3, H2, !app_nil_r;
     split; [done|]; split; [lia|]; split; [by left|done]].
  destruct (at_most_fit base tl vl g1 w3) as (k & Hk & H4). unfold saved in H4.
  destruct (train.fit base tl vl g1 w3) as [[st|e] w4]; cbn [fst snd] in H4 |- *;
    [|exists k, []; rewrite H4, H3, H2, app_nil_r;
     split; [done|]; split; [done|]; split; [by left|done]].
  set (w6 := log _ (log _ w4)).
  assert (saves (w_events w6) = saves (w_events w4)) as H6
    by (unfold w6; by saves_steps).
  destruct (saved_finalize base (train.model st) w6) as [Hok (final & Hfinal & H7)].
  unfold saved in H7.
  destruct (train.finalize base (train.model st) w6) as [[[]|e] w7];
    [|discriminate Hok].
  cbn [snd fst] in H7 |- *. exists k, final.
  saves_steps. rewrite H7, H6, H4, H3, H2, <- app_assoc.
  split; [done|]. split; [done|]. split; [done|]. discriminate.
Qed.

(** ** A run without its dataset *)



(** ** Ten samples or more *)

Lemma loader_len_pos (subset : list nat) shuffle :
  subset ≠ [] → loader_len (MkDataLoader subset config.BATCH_SIZE shuffle) ≠ 0%nat.
Proof.
  intros Hne. unfold loader_len. cbn [torch.subset torch.batch_size].
  intros Hk. apply Nat.div_small_iff in Hk; [|done].
  destruct subset; [done|]. unfold config.BATCH_SIZE in Hk. simpl in Hk. lia.
Qed.

Section Enough.
Context {G Model : Type} `{!Generator G, !Torch G Model, !Format, !Libm}.

Lemma validate_phase_nonempty (subset : list nat) (m : Model) (g : G) shuffle :
  subset ≠ [] →
  is_ok (train.validate_phase (MkDataLoader subset config.BATCH_SIZE shuffle) m g)
    = true.
Proof.
  intros Hne. unfold train.validate_phase.
  destruct (train.loader_batches _ g) as [batches g'].
  pose proof (loader_len_pos subset shuffle Hne) as Hpos.
  by destruct (loader_len _).
Qed.

Lemma split_sizes_eq (n : nat) :
  (n ≤ max_len)%nat →
  train.split_sizes n = Ok ((Z.of_nat n - Z.of_nat (n / 10))%Z, Z.of_nat (n / 10)).
Proof.
  intros Hn. unfold train.split_sizes. by rewrite val_size_tenth.
Qed.

Lemma split_at_eq (n : nat) (g : G) :
  (n ≤ max_len)%nat →
  train.split_at n (Z.of_nat n - Z.of_nat (n / 10)) (Z.of_nat (n / 10)) g =
    Ok (take (n - n / 10) (randperm n g).1,
        drop (n - n / 10) (randperm n g).1, (randperm n g).2).
Proof.
  intros Hn. pose proof (split_eq n g Hn) as Hsplit.
  unfold train.split in Hsplit. by rewrite split_sizes_eq in Hsplit.
Qed.

End Enough.



(** ** What the best checkpoint holds after an epoch *)

Lemma torch_save_ok {G Model : Type} `{!Torch G Model} bytes p w w' :
  torch_save bytes p w = (Ok tt, w') →
  files (w_disk w') !! p = Some (Blob bytes) ∧
  ∀ q, q ≠ p → files (w_disk w') !! q = files (w_disk w) !! q.
Proof.
  unfold torch_save. rewrite w_disk_log.
  destruct (save_fault _ _ _) as [[[k|] e]|]; try discriminate.
  intros [= <-]. cbn [w_disk write_upto advance log]. split.
  - apply written_at_all.
  - intros q Hq. by apply written_other.
Qed.



(** ** The batches of the validation loader *)

Lemma ceil_div_step (len size : nat) :
  (0 < size)%nat → (0 < len)%nat →
  ((len + size - 1) / size = S ((len - size + size - 1) / size))%nat.
Proof.
  intros Hsize Hlen. destruct (decide (size ≤ len)%nat) as [Hge|Hlt].
  - replace (len + size - 1)%nat with ((len - size + size - 1) + 1 * size)%nat
      by lia.
    rewrite Nat.div_add by lia. lia.
  - replace (len - size + size - 1)%nat with (size - 1)%nat by lia.
    rewrite (Nat.div_small (size - 1) size) by lia.
    symmetry. apply (Nat.div_unique _ _ 1 (len - 1)); lia.
Qed.

Lemma chunks_spec (fuel size : nat) (l : list nat) :
  (0 < size)%nat → (length l ≤ fuel)%nat →
  concat (chunks fuel size l) = l ∧
  length (chunks fuel size l) = ((length l + size - 1) / size)%nat ∧
  Forall (fun b => 1 ≤ length b ≤ size)%nat (chunks fuel size l).
Proof.
  intros Hsize. revert l. induction fuel as [|fuel IH]; intros l Hfuel.
  - destruct l; [|simpl in Hfuel; lia]. simpl.
    rewrite Nat.div_small by lia. done.
  - destruct l as [|x l'] eqn:Hl.
    + simpl. rewrite Nat.div_small by lia. done.
    + rewrite <- Hl in *. assert (0 < length l)%nat as Hpos
        by (rewrite Hl; simpl; lia).
      assert (chunks (S fuel) size l =
              take size l :: chunks fuel size (drop size l)) as ->
        by (by rewrite Hl).
      destruct (IH (drop size l)) as (Hcat & Hlen & Hall).
      { rewrite length_drop. lia. }
      rewrite length_drop in Hlen. split; [|split].
      * simpl. by rewrite Hcat, take_drop.
      * simpl. rewrite Hlen. symmetry. by apply ceil_div_step.
      * constructor; [|done]. rewrite length_take. lia.
Qed.



(** ** The exporter *)

Lemma export_path_ne_weights_path base :
  exporter.export_path base ≠ exporter.weights_path base.
Proof.
  unfold exporter.export_path, exporter.weights_path.
  intros Heq. apply path_join_inj_r in Heq; [|done..].
  vm_compute in Heq. discriminate Heq.
Qed.

Lemma export_path_ne_best_path base :
  exporter.export_path base ≠ train.best_model_path base.
Proof.
  unfold exporter.export_path, train.best_model_path.
  intros Heq. apply path_join_inj_r in Heq; [|done..].
  vm_compute in Heq. discriminate Heq.
Qed.

Section ExporterProps.
Context {G Model : Type} `{!Torch G Model}.

Lemma keeps_export base (g : G) p :
  p ≠ exporter.export_path base →
  always (keeps p) (exporter.export_model_to_torchscript base g).
Proof.
  intros Hne. unfold exporter.export_model_to_torchscript.
  apply always_bind; [apply _|apply keeps_print|intros _].
  apply always_bind; [apply _|apply always_read_disk, _|intros d].
  destruct (negb (exists_ d (exporter.weights_path base))).
  - apply always_bind; [apply _|apply keeps_print|intros _].
    apply always_bind; [apply _|apply keeps_print|intros _].
    apply always_ret, _.
  - apply always_bind; [apply _|apply keeps_print|intros _].
    destruct (unet_init g) as [m0 g1].
    apply always_bind; [apply _|apply always_lift, _|intros bytes].
    apply always_bind; [apply _|apply always_lift, _|intros m].
    apply always_bind; [apply _|apply keeps_print|intros _].
    apply always_bind; [apply _|apply keeps_print|intros _].
    destruct (trace_and_serialize m g1) as [traced g2].
    apply always_bind; [apply _|apply always_lift, _|intros graph].
    apply always_bind; [apply _|apply keeps_print|intros _].
    apply always_bind; [apply _|by apply keeps_torch_save|intros _].
    apply always_bind; [apply _|apply keeps_print|intros _].
    apply keeps_print.
Qed.

End ExporterProps.

(** X15: a run of the exporter, whether it returns or raises, leaves
    every file other than the exported one what it was, in every state
    the disk goes through; in particular the two checkpoints of the
    training run. *)
Theorem export_keeps_others {G Model : Type} `{!Torch G Model}
    (base : string) (g : G) (w : world) :
  (∀ p, p ≠ exporter.export_path base →
        keeps p w (exporter.export_model_to_torchscript base g w).2) ∧
  keeps (train.model_path base) w
        (exporter.export_model_to_torchscript base g w).2 ∧
  keeps (train.best_model_path base) w
        (exporter.export_model_to_torchscript base g w).2.
Proof.
  split; [|split].
  - intros p Hp. by apply keeps_export.
  - apply keeps_export. intros Heq. by apply (export_path_ne_weights_path base).
  - apply keeps_export. intros Heq. by apply (export_path_ne_best_path base).
Qed.

(** X16: with the weights file in place, the exporter returns exactly
    when the checkpoint can be read and loaded, the network traced, and
    the write of the traced network does not fail; the exported file
    then holds the whole traced network.  When one of the steps before
    the write raises, the exporter raises the same exception and the
    disk is untouched; when the write fails, the exporter raises what
    the write raised. *)
Theorem export_outcome {G Model : Type} `{!Torch G Model}
    (base : string) (g : G) (w : world) :
  exists_ (w_disk w) (exporter.weights_path base) = true →
  let r := exporter.export_model_to_torchscript base g w in
  match traced_graph base g (w_disk w) with
  | Raise e => r.1 = Raise e ∧ w_disk r.2 = w_disk w ∧ saves (w_events r.2) = saves (w_events w)
  | Ok graph =>
      saves (w_events r.2) = saves (w_events w) ++ [exporter.export_path base] ∧
      match save_fault (w_disk w) (exporter.export_path base) graph with
      | Some (_, e) => r.1 = Raise e
      | None =>
          r.1 = Ok tt ∧
          files (w_disk r.2) !! exporter.export_path base = Some (Blob graph)
      end
  end.
Proof.
  intros Hex r. subst r.
  remember (traced_graph base g (w_disk w)) as tg eqn:Htg.
  unfold traced_graph in Htg.
  unfold exporter.export_model_to_torchscript.
  unfold mbind, io_bind, Io.bind, print, read_disk, lift.
  rewrite w_disk_log, Hex. cbn [negb].
  destruct (unet_init g) as [m0 g1]. cbn [snd] in Htg.
  destruct (exporter.read_checkpoint _ _) as [bytes|e];
    cbn [mbind result_bind Py.bind] in Htg;
    [|subst tg; cbn [fst snd]; by saves_steps].
  destruct (load_state_dict bytes) as [m|e];
    cbn [mbind result_bind Py.bind] in Htg;
    [|subst tg; cbn [fst snd]; by saves_steps].
  destruct (trace_and_serialize m g1) as [[graph|e] g2];
    cbn [fst] in Htg; subst tg; cbn [fst snd]; [|by saves_steps].
  unfold torch_save. rewrite !w_disk_log.
  destruct (save_fault _ _ _) as [[[k|] e]|]; cbn [fst snd].
  - split; [by saves_steps|done].
  - split; [by saves_steps|done].
  - split; [by saves_steps|]. split; [done|].
    rewrite !w_disk_log. cbn [w_disk write_upto advance].
    apply written_at_all.
Qed.

(** The one-byte checkpoint, exported by the scripted network. *)
Lemma export_outcome_witness :
  let r := exporter.export_model_to_torchscript
             (Torch0 := scripted true [] no_fault) "/app" []
             (boot trained_disk) in
  saves (w_events r.2) = [exporter.export_path "/app"] ∧
  r.1 = Ok tt ∧
  files (w_disk r.2) !! exporter.export_path "/app" = Some (Blob [Byte.x00]).
Proof.
  intros r.
  pose proof (export_outcome (Torch0 := scripted true [] no_fault) "/app" []
                (boot trained_disk) ltac:(vm_compute; reflexivity)) as Hrun.
  cbn zeta in Hrun. fold r in Hrun.
  change (traced_graph (Torch0 := scripted true [] no_fault) "/app" []
            (w_disk (boot trained_disk))) with (@Ok (list Byte.byte) [Byte.x00])
    in Hrun.
  exact Hrun.
Defined.

(** ** From the training run to the exporter *)

(** X17: the exporter looks for the weights where [train_model] puts
    them.  After a final save whose directory could be made and whose
    write did not fail, the weights file exists, and the checkpoint the
    exporter reads from it is the snapshot of the parameters moved to
    the CPU, byte for byte. *)
Theorem finalize_then_read {G Model : Type} `{!Torch G Model}
    (base : string) (m : Model) (w : world) (d1 : disk) :
  makedirs (w_disk w) (config.WEIGHTS_DIR base) = Ok d1 →
  save_fault d1 (train.model_path base) (state_dict (to_cpu m)) = None →
  let w' := (train.finalize base m w).2 in
  exporter.weights_path base = train.model_path base ∧
  exists_ (w_disk w') (exporter.weights_path base) = true ∧
  exporter.read_checkpoint (w_disk w') (exporter.weights_path base) =
    Ok (state_dict (to_cpu m)).
Proof.
  intros Hmk Hsave w'.
  assert (files (w_disk w') !! train.model_path base =
          Some (Blob (state_dict (to_cpu m)))) as Hfile.
  { subst w'. unfold train.finalize, try_except.
    unfold mbind, io_bind, Io.bind, print, os_makedirs, torch_save.
    rewrite !w_disk_log, Hmk. cbn [w_disk advance log]. rewrite Hsave.
    cbn [snd w_disk write_upto advance log]. apply written_at_all. }
  split; [done|].
  change (exporter.weights_path base) with (train.model_path base).
  split; [by eapply exists_file|].
  unfold exporter.read_checkpoint. by rewrite Hfile.
Qed.

(** On an empty disk, with a network of two parameters. *)
Lemma finalize_then_read_witness :
  let T := scripted true [] no_fault in
  let w' := (train.finalize (Torch0 := T) "/app"
               [1%float; 2%float] (boot Disk.empty)).2 in
  exporter.weights_path "/app" = train.model_path "/app" ∧
  exists_ (w_disk w') (exporter.weights_path "/app") = true ∧
  exporter.read_checkpoint (w_disk w') (exporter.weights_path "/app") =
    Ok [Byte.x01; Byte.x01; Byte.x01].
Proof.
  intros T.
  eapply (finalize_then_read (Torch0 := T) "/app" [1%float; 2%float]
            (boot Disk.empty)).
  - vm_compute. reflexivity.
  - reflexivity.
Defined.

(** ** The parameter table *)

(** X18: [load_camels_parameters] returns [None] exactly when pandas
    cannot be imported or the parameter file does not exist, and never
    raises then; otherwise it returns the table that [read_csv] makes
    of the file, or raises what [read_csv] raises.  In every case the
    disk is left as it was and no write is started. *)
Theorem load_camels_parameters_outcome {DataFrame : Type} `{!Pandas DataFrame}
    (root_dir suite dataset_type : string) (w : world) :
  let param_file := path_join root_dir (param_filename suite dataset_type) in
  let r := load_camels_parameters root_dir suite dataset_type w in
  w_disk r.2 = w_disk w ∧ w_past r.2 = w_past w ∧ no_save w r.2 ∧
  match r.1 with
  | Ok None =>
      pandas_installed = false ∨ exists_ (w_disk w) param_file = false
  | Ok (Some params_df) =>
      pandas_installed = true ∧ exists_ (w_disk w) param_file = true ∧
      read_csv (w_disk w) param_file = Ok params_df
  | Raise e =>
      pandas_installed = true ∧ exists_ (w_disk w) param_file = true ∧
      read_csv (w_disk w) param_file = Raise e
  end.
Proof.
  intros param_file r. subst r. unfold load_camels_parameters, no_save.
  fold param_file.
  destruct pandas_installed; cbn [negb];
    unfold mbind, io_bind, Io.bind, print, read_disk, lift, mret, io_ret, Io.ret;
    cbn [fst snd]; [|saves_steps; by auto].
  destruct (exists_ (w_disk w) param_file); cbn [negb fst snd];
    [|saves_steps; by auto].
  destruct (read_csv (w_disk w) param_file) as [params_df|e]; cbn [fst snd];
    saves_steps; by auto.
Qed.

Example load_parameters_missing :
  (load_camels_parameters (Pandas0 := pandas_bytes) "data" "IllustrisTNG" "CV"
     (boot Disk.empty)).1 = Ok None ∧
  (load_camels_parameters (Pandas0 := pandas_bytes) "data" "IllustrisTNG" "CV"
     (boot params_disk)).1 = Ok (Some [Byte.x31; Byte.x32]).
Proof. split; vm_compute; reflexivity. Qed.

(** ** When a run returns *)

(** X19: [train_model] returns exactly when the data loads and the
    epoch loop returns, and otherwise raises what that step raised.
    What becomes of the final save has no bearing on it: once the loop
    is through, the run returns, also when the final weights could not
    be written. *)
Theorem train_model_outcome {G Model : Type}
    `{!Generator G, !Torch G Model, !Format, !Libm}
    (base device : string) (h : heap) (g : G) (w : world) :
  let w0 := log (Print "--- Weights & Biases tracking is enabled ---")
              (log (Print ("--- Starting Training on " +:+ device +:+ " ---")) w) in
  let r := train.train_model base device h g w in
  match train.load_data base h g w0 with
  | (Raise e, _) => r.1 = Raise e
  | (Ok (tl, vl, g1), w1) =>
      match train.fit base tl vl g1 w1 with
      | (Raise e, _) => r.1 = Raise e
      | (Ok _, _) => r.1 = Ok tt
      end
  end.
Proof.
  intros w0 r. subst r. unfold train.train_model.
  unfold mbind, io_bind, Io.bind, print. fold w0.
  destruct (train.load_data base h g w0) as [[[[tl vl] g1]|e] w1]; [|done].
  destruct (train.fit base tl vl g1 w1) as [[st|e] w2]; [|done].
  destruct (saved_finalize base (train.model st)
              (log (Print "--- Proceeding to save model weights. ---")
                 (log (Print (newline +:+ "--- Training Finished ---")) w2)))
    as [Hok _].
  destruct (train.finalize _ _ _) as [[[]|e] w3]; [done|discriminate Hok].
Qed.

(** ** Training batches and the validation part *)

Lemma elem_of_concat {A} (x : A) (ls : list (list A)) :
  x ∈ concat ls ↔ ∃ l, l ∈ ls ∧ x ∈ l.
Proof.
  rewrite list_elem_of_In, in_concat. split.
  - intros (l & Hl & Hx). exists l. by rewrite !list_elem_of_In.
  - intros (l & Hl & Hx). exists l. by rewrite <- !list_elem_of_In.
Qed.

Section Leak.
Context {G Model : Type} `{!Generator G, !Torch G Model, !Format, !Libm}.

(** What [load_data] returns, when it does. *)
Lemma load_data_inv base (h h' : heap) (g g' : G) w w' ds n tl vl :
  dataset.init (w_disk w) h (config.DATA_DIR base) config.SUITE config.DATASET_TYPE
    = Ok (ds, h') →
  dataset.len ds = Ok n →
  (n ≤ max_len)%nat →
  train.load_data base h g w = (Ok (tl, vl, g'), w') →
  tl = MkDataLoader (take (n - n / 10) (randperm n g).1) config.BATCH_SIZE true ∧
  vl = MkDataLoader (drop (n - n / 10) (randperm n g).1) config.BATCH_SIZE false ∧
  g' = (randperm n g).2.
Proof.
  intros Hinit Hlen Hmax.
  unfold train.load_data, mbind, io_bind, Io.bind, print, read_disk, lift.
  rewrite w_disk_log, Hinit, Hlen, (split_sizes_eq n Hmax),
    (split_at_eq n g Hmax).
  destruct (train.new_loader (take _ _) true) as [tl0|] eqn:Htl; [|discriminate].
  unfold train.new_loader in Htl |- *. cbn [andb].
  destruct (_ && _); [discriminate|]. injection Htl as <-.
  unfold mret, io_ret, Io.ret. by intros [= <- <- <- _].
Qed.

Lemma train_batches_perm (tl : DataLoader) (g0 : G) :
  (∀ (g : G) l, (epoch_order g l).1 ≡ₚ l) →
  (0 < batch_size tl)%nat →
  concat (train.loader_batches tl g0).1 ≡ₚ subset tl.
Proof.
  intros Horder Hsize. unfold train.loader_batches, batched.
  destruct (shuffle tl).
  - specialize (Horder g0 (subset tl)).
    destruct (epoch_order g0 (subset tl)) as [order g1]. cbn [fst] in *.
    destruct (chunks_spec (length order) (batch_size tl) order Hsize)
      as [-> _]; done.
  - cbn [fst].
    destruct (chunks_spec (length (subset tl)) (batch_size tl) (subset tl) Hsize)
      as [-> _]; done.
Qed.

End Leak.


